(** * Spedify: the extraction and normalisation pipeline of the BuyHatke scraper

    A shallow embedding of the decision logic of
    [scraper/ollama_scraper.py] (class [OllamaBuyHatkeScraper]) and of
    [scraper/price_history_extractor.py] (class [PriceHistoryExtractor]),
    with the properties of the specification stated and proved over it.

    Conventions of the embedding.
    - A Python [str] is a list of Unicode code points ([str := list N]);
      literals are written [py "..."] and decoded from the UTF-8 bytes of the
      Rocq string, so [py "₹"] is the one code point U+20B9.
    - A Python [float] is an IEEE-754 binary64 value, [spec_float] of the
      Standard Library at precision 53 and maximal exponent 1024.
    - A Python [dict] used as a record is a [gmap string pyval]; a [dict]
      whose iteration order matters is an association list.
    - Code that can raise returns a [result]; a [try]/[except] is [try_except].
    - The parts of the Unicode character database that the code consults
      outside ASCII are a parameter, the class [Unicode]. *)

From Stdlib Require Import ZArith NArith SpecFloat.
From stdpp Require Import base option list gmap strings.

Open Scope Z_scope.

(** ** Python strings *)

Module PyStr.

Definition str := list N.

(** UTF-8 decoding of a literal: one code point per encoded sequence. *)
Fixpoint utf8_decode (bs : list N) : str :=
  match bs with
  | [] => []
  | b :: r =>
      if (b <? 128)%N then b :: utf8_decode r
      else if (b <? 224)%N then
        match r with
        | b1 :: r1 => ((b - 192) * 64 + (b1 - 128))%N :: utf8_decode r1
        | _ => [b]
        end
      else if (b <? 240)%N then
        match r with
        | b1 :: b2 :: r2 =>
            ((b - 224) * 4096 + (b1 - 128) * 64 + (b2 - 128))%N :: utf8_decode r2
        | _ => [b]
        end
      else
        match r with
        | b1 :: b2 :: b3 :: r3 =>
            ((b - 240) * 262144 + (b1 - 128) * 4096 + (b2 - 128) * 64 + (b3 - 128))%N
              :: utf8_decode r3
        | _ => [b]
        end
  end.

Fixpoint bytes_of_string (s : string) : list N :=
  match s with
  | EmptyString => []
  | String a r => Ascii.N_of_ascii a :: bytes_of_string r
  end.

Definition py (s : string) : str := utf8_decode (bytes_of_string s).

(** The Unicode character database outside ASCII.  [uni_lower before c after]
    is what [str.lower()] puts for the code point [c] standing between
    [before] and [after] (the context decides the final sigma);
    [uni_digit c] tells [str.isdigit()] and the decimal value that [int()]
    and [float()] read. *)
Inductive digit_kind :=
| NotDigit                (* isdigit() is false *)
| DigitOnly               (* isdigit() is true, int() rejects it: superscripts *)
| Decimal (v : N).        (* category Nd: isdigit() is true, value v *)

Class Unicode := {
  uni_lower : str -> N -> str -> str;
  uni_digit : N -> digit_kind
}.

(** A database with no cased letter and no digit outside ASCII. *)
Definition ascii_table : Unicode :=
  {| uni_lower := fun _ c _ => [c]; uni_digit := fun _ => NotDigit |}.

Section WithUnicode.
Context {U : Unicode}.

Definition is_upper (c : N) : bool := (65 <=? c)%N && (c <=? 90)%N.
Definition is_ascii_digit (c : N) : bool := (48 <=? c)%N && (c <=? 57)%N.

Fixpoint lower_go (before : str) (s : str) : str :=
  match s with
  | [] => []
  | c :: r =>
      (if (c <? 128)%N then [if is_upper c then (c + 32)%N else c]
       else uni_lower before c r) ++ lower_go (before ++ [c]) r
  end.

(** [s.lower()] *)
Definition lower (s : str) : str := lower_go [] s.

Definition digit_of (c : N) : digit_kind :=
  if (c <? 128)%N then (if is_ascii_digit c then Decimal (c - 48) else NotDigit)
  else uni_digit c.

Definition is_digit_char (c : N) : bool :=
  match digit_of c with NotDigit => false | _ => true end.

(** [s.isdigit()]: every character is a digit and there is at least one. *)
Definition isdigit (s : str) : bool :=
  match s with [] => false | _ => forallb is_digit_char s end.

Definition decimal_of (c : N) : option N :=
  match digit_of c with Decimal v => Some v | _ => None end.
End WithUnicode.

(** [str.isspace()] of one code point: the white space that [strip()]
    removes and that [float()] and [int()] skip. *)
Definition is_space (c : N) : bool :=
  ((9 <=? c) && (c <=? 13) || (28 <=? c) && (c <=? 32) || (c =? 133) || (c =? 160)
   || (c =? 5760) || (8192 <=? c) && (c <=? 8202) || (c =? 8232) || (c =? 8233)
   || (c =? 8239) || (c =? 8287) || (c =? 12288))%N.

Fixpoint lstrip (s : str) : str :=
  match s with
  | c :: r => if is_space c then lstrip r else s
  | [] => []
  end.

Definition rstrip (s : str) : str := rev (lstrip (rev s)).

(** [s.strip()] *)
Definition strip (s : str) : str := rstrip (lstrip s).

Definition str_eqb (a b : str) : bool := bool_decide (a = b).

(** [s.startswith(p)] *)
Fixpoint startswith (p s : str) : bool :=
  match p, s with
  | [], _ => true
  | a :: p', b :: s' => (a =? b)%N && startswith p' s'
  | _ :: _, [] => false
  end.

(** [p in s] for strings *)
Fixpoint contains (p s : str) : bool :=
  startswith p s || match s with [] => false | _ :: r => contains p r end.

(** [s.replace(old, new)]: the occurrences of [old] are taken from left to
    right and do not overlap; [skip] counts the characters of the
    occurrence being replaced that are still to be passed over. *)
Fixpoint replace_go (old new : str) (skip : nat) (s : str) : str :=
  match s with
  | [] => []
  | c :: r =>
      match skip with
      | S k => replace_go old new k r
      | O =>
          if startswith old s
          then new ++ replace_go old new (Nat.pred (length old)) r
          else c :: replace_go old new 0 r
      end
  end.

Definition replace (old new s : str) : str :=
  match old with
  | [] => new ++ flat_map (fun c => c :: new) s
  | _ => replace_go old new 0 s
  end.

(** Decimal digits of a natural number, most significant first. *)
Fixpoint digits_fuel (fuel : nat) (n : N) (acc : str) : str :=
  match fuel with
  | O => acc
  | S k =>
      let acc' := (48 + n mod 10)%N :: acc in
      if (n <? 10)%N then acc' else digits_fuel k (n / 10)%N acc'
  end.

Definition digits (n : N) : str := digits_fuel (S (N.to_nat (N.log2 n))) n [].

(** [str(z)] for an [int] *)
Definition str_of_Z (z : Z) : str :=
  match z with
  | Zneg p => py "-" ++ digits (Npos p)
  | _ => digits (Z.to_N z)
  end.

(** Thousands separators, as the [,] option of the format mini-language
    puts them into a run of digits. *)
Fixpoint group3_go (s : str) (n : nat) : str :=
  match s with
  | [] => []
  | c :: r =>
      c :: (match r with
            | [] => []
            | _ => if (Nat.eqb (n mod 3) 1) then 44%N :: group3_go r (Nat.pred n)
                   else group3_go r (Nat.pred n)
            end)
  end.

Definition group3 (s : str) : str := group3_go s (length s).

(** [f"{z:,}"] for an [int] *)
Definition format_int_comma (z : Z) : str :=
  match z with
  | Zneg p => py "-" ++ group3 (digits (Npos p))
  | _ => group3 (digits (Z.to_N z))
  end.

(** The value of an ASCII digit; the characters of a grouped numeral. *)
Definition digit_value (c : N) : N := (c - 48)%N.
Definition not_comma (c : N) : bool := negb (c =? 44)%N.
Definition digit_or_comma (c : N) : bool := is_ascii_digit c || (c =? 44)%N.

End PyStr.

Import PyStr.

(** ** Exceptions *)

Module PyExn.

Inductive exn :=
| ValueError | TypeError | AttributeError | KeyError
| ZeroDivisionError | OverflowError | OSError.

Inductive result (A : Type) :=
| Ok (a : A)
| Raise (e : exn).
Arguments Ok {A} a.
Arguments Raise {A} e.

Declare Scope result_scope.
Delimit Scope result_scope with result.
Bind Scope result_scope with result.

(** [x <- m ;; k]: run [m]; an exception leaves at once. *)
Notation "x <- m ;; k" :=
  (match m with Ok x => k | Raise e => Raise e end)
    (at level 100, m at next level, right associativity) : result_scope.
Open Scope result_scope.

(** [try: body  except: handler] with a handler that catches everything. *)
Definition try_except {A} (body : result A) (handler : exn -> result A) : result A :=
  match body with Ok a => Ok a | Raise e => handler e end.

Definition raises {A} (r : result A) : bool :=
  match r with Ok _ => false | Raise _ => true end.

End PyExn.

Import PyExn.
Open Scope result_scope.

(** ** Python floats and numbers *)

Module PyNum.

Definition f64 := spec_float.

Definition prec : Z := 53.
Definition emax : Z := 1024.

Definition fadd : f64 -> f64 -> f64 := SFadd prec emax.
Definition fsub : f64 -> f64 -> f64 := SFsub prec emax.
Definition fmul : f64 -> f64 -> f64 := SFmul prec emax.
Definition fdiv : f64 -> f64 -> f64 := SFdiv prec emax.
Definition feq : f64 -> f64 -> bool := SFeqb.

#[export] Instance f64_eq_dec : EqDecision f64.
Proof. solve_decision. Defined.

Definition f_inf : f64 := S754_infinity false.
Definition f_zero : f64 := S754_zero false.

(** The float nearest to an integer (ties to even), infinite beyond the
    range. *)
Definition round_Z (z : Z) : f64 := binary_normalize prec emax z 0 false.

(** [float(z)] for an [int]: an integer too large for a float raises. *)
Definition float_of_Z (z : Z) : result f64 :=
  match round_Z z with
  | S754_infinity _ => Raise OverflowError
  | f => Ok f
  end.

(** The float nearest to [n / d] with the sign [neg].  The quotient is
    computed with at least [prec + 2] bits and a last bit that records
    whether anything was left over, so one rounding gives the nearest
    float. *)
Definition round_ratio (neg : bool) (n d : positive) : f64 :=
  let s := Z.max 0 (prec + 2 + Z.log2 (Zpos d) - Z.log2 (Zpos n)) in
  let q := Z.shiftl (Zpos n) s / Zpos d in
  let r := Z.shiftl (Zpos n) s mod Zpos d in
  let m := 2 * q + (if r =? 0 then 0 else 1) in
  binary_normalize prec emax (if neg then - m else m) (- s - 1) neg.

(** The float nearest to [(-1)^neg * n * 10^k]: what [float()] makes of a
    decimal numeral. *)
Definition float_of_decimal (neg : bool) (n : N) (k : Z) : f64 :=
  match n with
  | N0 => S754_zero neg
  | Npos p =>
      match k with
      | Zneg e => round_ratio neg p (10 ^ e)%positive
      | _ => binary_normalize prec emax
               (if neg then - (Zpos p * 10 ^ k) else Zpos p * 10 ^ k) 0 neg
      end
  end.

(** Truthiness of a float: zero of either sign is false. *)
Definition f_truthy (f : f64) : bool :=
  match f with S754_zero _ => false | _ => true end.

(** The exact integer nearest to [|f| * 10^d], ties to even; [None] for an
    infinity or a NaN. *)
Definition scaled_round (d : nat) (f : f64) : option N :=
  match f with
  | S754_zero _ => Some 0%N
  | S754_finite _ m e =>
      let num := Zpos m * 10 ^ Z.of_nat d in
      match e with
      | Zneg p =>
          let den := Z.pow_pos 2 p in
          let q := num / den in
          let r := num mod den in
          Some (Z.to_N (match 2 * r ?= den with
                        | Lt => q
                        | Gt => q + 1
                        | Eq => if Z.even q then q else q + 1
                        end))
      | _ => Some (Z.to_N (num * 2 ^ e))
      end
  | _ => None
  end.

Definition sign_of (f : f64) : bool :=
  match f with
  | S754_zero s | S754_infinity s | S754_finite s _ _ => s
  | S754_nan => false
  end.

(** [f"{x:.<d>f}"] and, with [comma], [f"{x:,.<d>f}"]. *)
Definition format_fixed (comma : bool) (d : nat) (f : f64) : str :=
  match scaled_round d f with
  | None =>
      match f with
      | S754_nan => py "nan"
      | _ => if sign_of f then py "-inf" else py "inf"
      end
  | Some n =>
      let ip := digits (n / 10 ^ N.of_nat d)%N in
      let fp := digits (10 ^ N.of_nat d + n mod 10 ^ N.of_nat d)%N in
      (if sign_of f then py "-" else [])
        ++ (if comma then group3 ip else ip)
        ++ match d with O => [] | S _ => py "." ++ drop 1 fp end
  end.

(** [int(x)] for a float: truncation towards zero. *)
Definition int_of_float (f : f64) : result Z :=
  match f with
  | S754_zero _ => Ok 0
  | S754_finite s m e =>
      let v := match e with
               | Zneg p => Zpos m / Z.pow_pos 2 p
               | _ => Zpos m * 2 ^ e
               end in
      Ok (if s then - v else v)
  | S754_infinity _ => Raise OverflowError
  | S754_nan => Raise ValueError
  end.

(** *** [float(s)] and [int(s)] for a string *)

(** The white space that [float()] and [int()] skip at the two ends of a
    string: the white space of C in ASCII (tab, line feed, vertical tab,
    form feed, carriage return and the blank) and the white space of Unicode
    outside ASCII.  The separators U+001C to U+001F, which [str.strip()]
    removes, are not skipped. *)
Definition is_number_space (c : N) : bool :=
  is_space c && negb ((28 <=? c) && (c <=? 31))%N.

Fixpoint lstrip_by (p : N -> bool) (s : str) : str :=
  match s with
  | c :: r => if p c then lstrip_by p r else s
  | [] => []
  end.

Definition strip_by (p : N -> bool) (s : str) : str :=
  rev (lstrip_by p (rev (lstrip_by p s))).

(** [sys.int_max_str_digits] as the interpreter sets it: [int()] refuses a
    decimal numeral of more digits (CPython 3.11 and later). *)
Definition max_str_digits : nat := 4300.

Section Parsing.
Context {U : Unicode}.

(** [digit (["_"] digit)*] after its first digit: the values of the digits
    read and the rest of the input. *)
Fixpoint digitpart_go (s : str) : list N * str :=
  match s with
  | c :: r =>
      match decimal_of c with
      | Some v => let '(ds, rest) := digitpart_go r in (v :: ds, rest)
      | None =>
          if (c =? 95)%N then
            match r with
            | c2 :: r2 =>
                match decimal_of c2 with
                | Some v => let '(ds, rest) := digitpart_go r2 in (v :: ds, rest)
                | None => ([], s)
                end
            | [] => ([], s)
            end
          else ([], s)
      end
  | [] => ([], [])
  end.

Definition digitpart (s : str) : option (list N * str) :=
  match s with
  | c :: r =>
      match decimal_of c with
      | Some v => let '(ds, rest) := digitpart_go r in Some (v :: ds, rest)
      | None => None
      end
  | [] => None
  end.

Definition value_of (ds : list N) : N :=
  fold_left (fun acc d => (acc * 10 + d)%N) ds 0%N.

Definition take_sign (s : str) : bool * str :=
  match s with
  | 45%N :: r => (true, r)
  | 43%N :: r => (false, r)
  | _ => (false, s)
  end.

Definition ascii_lower (s : str) : str :=
  map (fun c => if is_upper c then (c + 32)%N else c) s.

(** [exponent ::= ("e" | "E") [sign] digitpart], up to the end. *)
Definition exponent (s : str) : option Z :=
  match s with
  | [] => Some 0
  | c :: r =>
      if (c =? 101)%N || (c =? 69)%N then
        let '(neg, r1) := take_sign r in
        match digitpart r1 with
        | Some (ds, []) =>
            Some (if neg then - Z.of_N (value_of ds) else Z.of_N (value_of ds))
        | _ => None
        end
      else None
  end.

(** [floatnumber ::= ([digitpart] "." digitpart | digitpart ["."]) [exponent]] *)
Definition floatnumber (neg : bool) (s : str) : option f64 :=
  let '(ip, r1) := match digitpart s with
                   | Some (ds, r) => (ds, r)
                   | None => ([], s)
                   end in
  let '(fp, r2) := match r1 with
                   | 46%N :: r =>
                       match digitpart r with
                       | Some (ds, r') => (ds, r')
                       | None => ([], r)
                       end
                   | _ => ([], r1)
                   end in
  match ip ++ fp with
  | [] => None
  | ds =>
      match exponent r2 with
      | Some e => Some (float_of_decimal neg (value_of ds) (e - Z.of_nat (length fp)))
      | None => None
      end
  end.

(** [float(s)]: white space around the numeral is skipped; the numeral is
    a decimal number, an infinity or a NaN; anything else is a
    [ValueError]. *)
Definition py_float (s : str) : result f64 :=
  let '(neg, r) := take_sign (strip_by is_number_space s) in
  let w := ascii_lower r in
  if str_eqb w (py "inf") || str_eqb w (py "infinity") then Ok (S754_infinity neg)
  else if str_eqb w (py "nan") then Ok S754_nan
  else match floatnumber neg r with
       | Some f => Ok f
       | None => Raise ValueError
       end.

(** [int(s)] in base ten: the digits, leading zeros included, are counted
    against [max_str_digits]; the sign, the underscores and the white space
    are not. *)
Definition py_int (s : str) : result Z :=
  let '(neg, r) := take_sign (strip_by is_number_space s) in
  match digitpart r with
  | Some (ds, []) =>
      if (max_str_digits <? length ds)%nat then Raise ValueError
      else Ok (if neg then - Z.of_N (value_of ds) else Z.of_N (value_of ds))
  | _ => Raise ValueError
  end.
End Parsing.

(** The float 1.0, and the exponent and the mantissa of the float of a
    positive integer below 2^53: its 53-bit normal form. *)
Definition f_one : f64 := S754_finite false 4503599627370496 (-52).
Definition emin64 : Z := -1074.
Definition small_exponent (p : positive) : Z := Zpos (digits2_pos p) - 53.
Definition small_mantissa (p : positive) : positive :=
  match small_exponent p with
  | Zneg k => Pos.iter xO p k
  | _ => p
  end.

End PyNum.

Import PyNum.

(** ** Python values and dictionaries *)

Module PyVal.

Inductive pyval :=
| VNone
| VBool (b : bool)
| VInt (z : Z)
| VFloat (f : f64)
| VStr (s : str).

#[export] Instance pyval_eq_dec : EqDecision pyval.
Proof. solve_decision. Defined.

(** A [dict] with string keys, used as a record. *)
Abbreviation dict := (gmap string pyval).

(** [d.get(k, default)] *)
Definition get (d : dict) (k : string) (default : pyval) : pyval :=
  match d !! k with Some v => v | None => default end.

(** [d[k]] *)
Definition getitem (d : dict) (k : string) : result pyval :=
  match d !! k with Some v => Ok v | None => Raise KeyError end.

(** Truth value of an object. *)
Definition truthy (v : pyval) : bool :=
  match v with
  | VNone => false
  | VBool b => b
  | VInt z => negb (z =? 0)
  | VFloat f => f_truthy f
  | VStr s => match s with [] => false | _ => true end
  end.

(** [a or b] *)
Definition py_or (a b : pyval) : pyval := if truthy a then a else b.

(** The numbers among the values; [bool] is a subtype of [int]. *)
Inductive num := NInt (z : Z) | NFloat (f : f64).

Definition as_num (v : pyval) : option num :=
  match v with
  | VInt z => Some (NInt z)
  | VBool b => Some (NInt (if b then 1 else 0))
  | VFloat f => Some (NFloat f)
  | _ => None
  end.

(** Exact comparison of an integer with a float; [None] with a NaN. *)
Definition compare_Z_float (z : Z) (f : f64) : option comparison :=
  match f with
  | S754_nan => None
  | S754_infinity s => Some (if s then Gt else Lt)
  | S754_zero _ => Some (z ?= 0)
  | S754_finite s m e =>
      let v := if s then Zneg m else Zpos m in
      match e with
      | Zneg p => Some (z * Z.pow_pos 2 p ?= v)
      | _ => Some (z ?= v * 2 ^ e)
      end
  end.

Definition compare_num (a b : num) : option comparison :=
  match a, b with
  | NInt x, NInt y => Some (x ?= y)
  | NFloat x, NFloat y => SFcompare x y
  | NInt x, NFloat y => compare_Z_float x y
  | NFloat x, NInt y => option_map CompOpp (compare_Z_float y x)
  end.

Fixpoint str_ltb (a b : str) : bool :=
  match a, b with
  | _, [] => false
  | [], _ :: _ => true
  | x :: a', y :: b' => (x <? y)%N || ((x =? y)%N && str_ltb a' b')
  end.

(** [a < b]: numbers with numbers, strings with strings, a [TypeError]
    otherwise. *)
Definition py_lt (a b : pyval) : result bool :=
  match as_num a, as_num b with
  | Some x, Some y =>
      Ok (match compare_num x y with Some Lt => true | _ => false end)
  | _, _ =>
      match a, b with
      | VStr x, VStr y => Ok (str_ltb x y)
      | _, _ => Raise TypeError
      end
  end.

(** [a > b] *)
Definition py_gt (a b : pyval) : result bool := py_lt b a.

Definition to_float (n : num) : result f64 :=
  match n with NInt z => float_of_Z z | NFloat f => Ok f end.

(** [a - b] *)
Definition py_sub (a b : pyval) : result pyval :=
  match as_num a, as_num b with
  | Some (NInt x), Some (NInt y) => Ok (VInt (x - y))
  | Some x, Some y => fx <- to_float x;; fy <- to_float y;; Ok (VFloat (fsub fx fy))
  | _, _ => Raise TypeError
  end.

(** [a + b] on numbers *)
Definition py_add (a b : pyval) : result pyval :=
  match as_num a, as_num b with
  | Some (NInt x), Some (NInt y) => Ok (VInt (x + y))
  | Some x, Some y => fx <- to_float x;; fy <- to_float y;; Ok (VFloat (fadd fx fy))
  | _, _ => Raise TypeError
  end.

(** [a * b] on numbers *)
Definition py_mul (a b : pyval) : result pyval :=
  match as_num a, as_num b with
  | Some (NInt x), Some (NInt y) => Ok (VInt (x * y))
  | Some x, Some y => fx <- to_float x;; fy <- to_float y;; Ok (VFloat (fmul fx fy))
  | _, _ => Raise TypeError
  end.

(** [a / b]: true division.  Two integers give the float nearest to the
    exact quotient; a zero divisor raises. *)
Definition py_truediv (a b : pyval) : result pyval :=
  match as_num a, as_num b with
  | Some (NInt x), Some (NInt y) =>
      match y, x with
      | Z0, _ => Raise ZeroDivisionError
      | _, Z0 => Ok (VFloat f_zero)
      | _, _ =>
          match round_ratio (xorb (x <? 0) (y <? 0))
                  (Z.to_pos (Z.abs x)) (Z.to_pos (Z.abs y)) with
          | S754_infinity _ => Raise OverflowError
          | f => Ok (VFloat f)
          end
      end
  | Some x, Some y =>
      fx <- to_float x;; fy <- to_float y;;
      match fy with
      | S754_zero _ => Raise ZeroDivisionError
      | _ => Ok (VFloat (fdiv fx fy))
      end
  | _, _ => Raise TypeError
  end.

(** [f"{v:,.0f}"], [f"{v:.1f}"], ...: an [int] is converted to a float
    first. *)
Definition py_format_fixed (comma : bool) (d : nat) (v : pyval) : result str :=
  match as_num v with
  | Some n => f <- to_float n;; Ok (format_fixed comma d f)
  | None => match v with VStr _ => Raise ValueError | _ => Raise TypeError end
  end.

End PyVal.

Import PyVal.

(** Loops that may raise: [for x in l: s = f(s, x)]. *)
Fixpoint for_each {S A : Type} (f : S -> A -> result S) (l : list A) (s : S) : result S :=
  match l with
  | [] => Ok s
  | x :: r => s' <- f s x;; for_each f r s'
  end.

(** ** PriceCanonicalizer *)

Module Price.
Section WithUnicode.
Context {U : Unicode}.

(** The chain of [replace] calls and the [strip] of
    [_parse_price_numeric]. *)
Definition price_clean (price_str : str) : str :=
  strip
    (replace (py "Rs") []
       (replace (py "Rs.") []
          (replace (py ",") []
             (replace (py "â¹") []
                (replace (py "₹") [] price_str))))).

(** [OllamaBuyHatkeScraper._parse_price_numeric], on a string. *)
Definition _parse_price_numeric (price_str : str) : result pyval :=
  try_except
    (if negb (truthy (VStr price_str)) then Ok (VInt 0)
     else f <- py_float (price_clean price_str);; Ok (VFloat f))
    (fun _ => Ok (VInt 0)).

(** The price of [_extract_json_data]:
    [int(price_str) if price_str.isdigit() else 0]. *)
Definition price_of_field (price_str : str) : result Z :=
  if isdigit price_str then py_int price_str else Ok 0.

(** The display string of [_extract_json_data]:
    [f"₹{price:,}" if price else "Price not available"]. *)
Definition formatted_price (price : Z) : str :=
  if truthy (VInt price) then py "₹" ++ format_int_comma price
  else py "Price not available".

Definition is_number (v : pyval) : bool :=
  match v with VInt _ | VFloat _ => true | _ => false end.
End WithUnicode.
End Price.

(** ** MergeEngine: merging two lists of platform prices *)

Module Merge.
Section WithUnicode.
Context {U : Unicode}.

(** [price.get('platform', '').lower()]: only a string has [lower]. *)
Definition platform_key (price : dict) : result str :=
  match get price "platform" (VStr []) with
  | VStr s => Ok (lower s)
  | _ => Raise AttributeError
  end.

(** The two accumulators of the loops: [all_prices], [seen_platforms]. *)
Definition merge_state : Type := list dict * gset str.

Definition add_primary (st : merge_state) (price : dict) : result merge_state :=
  platform <- platform_key price;;
  if bool_decide (platform ∉ st.2)
  then Ok (st.1 ++ [price], st.2 ∪ {[platform]})
  else Ok st.

Definition add_additional (st : merge_state) (price : dict) : result merge_state :=
  platform <- platform_key price;;
  if bool_decide (platform ∉ st.2) && truthy (VStr platform)
  then Ok (st.1 ++ [price], st.2 ∪ {[platform]})
  else Ok st.

(** [OllamaBuyHatkeScraper._merge_price_data] *)
Definition _merge_price_data (primary_prices additional_prices : list dict)
  : list dict :=
  match
    st <- for_each add_primary primary_prices ([], ∅);;
    st' <- for_each add_additional additional_prices st;;
    Ok st'.1
  with
  | Ok all_prices => all_prices
  | Raise _ => primary_prices          (* primary_prices or [] *)
  end.

(** A price entry whose platform, when present, is a string. *)
Definition platform_is_str (price : dict) : Prop :=
  match price !! "platform" with
  | Some (VStr _) | None => True
  | Some _ => False
  end.

(** *** The merge in the words of the specification

    An entry of the primary list is kept when no entry before it has its
    platform, compared without regard to case.  An entry of the secondary
    list is appended when its platform is not empty and neither an entry
    of the primary list nor an entry before it in the secondary list has
    that platform. *)

(** The lower-cased platform of an entry, empty when the entry has none. *)
Definition platform_text (price : dict) : str :=
  match platform_key price with Ok platform => platform | Raise _ => [] end.

Definition appeared (earlier : list dict) (price : dict) : bool :=
  existsb (fun other => str_eqb (platform_text other) (platform_text price)) earlier.

Fixpoint keep_new (named_only : bool) (earlier l : list dict) : list dict :=
  match l with
  | [] => []
  | price :: r =>
      (if appeared earlier price
          || (named_only && negb (truthy (VStr (platform_text price))))
       then [] else [price])
        ++ keep_new named_only (earlier ++ [price]) r
  end.

Definition merge_in_words (primary secondary : list dict) : list dict :=
  keep_new false [] primary ++ keep_new true primary secondary.
End WithUnicode.
End Merge.

(** [[f(x) for x in l]] and [[x for x in l if p(x)]] with a body that may
    raise. *)
Fixpoint map_result {A B : Type} (f : A -> result B) (l : list A) : result (list B) :=
  match l with
  | [] => Ok []
  | x :: r => y <- f x;; r' <- map_result f r;; Ok (y :: r')
  end.

Fixpoint filter_result {A : Type} (p : A -> result bool) (l : list A) : result (list A) :=
  match l with
  | [] => Ok []
  | x :: r => b <- p x;; r' <- filter_result p r;; Ok (if b then x :: r' else r')
  end.

(** [list.sort(key=...)]: the keys are computed first, one per element, and
    only [<] compares them.  The items are sorted as CPython 3.11 sorts a
    list of fewer than 64 items: the run at the start of the list that is
    already ascending, or strictly descending and then reversed, is kept,
    and every later item is put into the sorted part at the place that a
    binary search finds.  (A longer list is cut into runs that are sorted
    so and then merged; the result is the same whenever [<] orders the
    keys, and the only keys that [<] compares without ordering them are
    NaN.) *)
Module PySort.
Section Sort.
Context {A : Type}.

(** The items after [prev] that go on an ascending run, one that has no item
    less than the one before it. *)
Fixpoint ascending_run (prev : pyval) (l : list (pyval * A)) : result nat :=
  match l with
  | [] => Ok 0%nat
  | x :: r =>
      b <- py_lt x.1 prev;;
      if b then Ok 0%nat else n <- ascending_run x.1 r;; Ok (S n)
  end.

(** The items after [prev] that go on a descending run, every item less
    than the one before it. *)
Fixpoint descending_run (prev : pyval) (l : list (pyval * A)) : result nat :=
  match l with
  | [] => Ok 0%nat
  | x :: r =>
      b <- py_lt x.1 prev;;
      if b then n <- descending_run x.1 r;; Ok (S n) else Ok 0%nat
  end.

(** [count_run]: the length of the run at the start, and whether it
    descends. *)
Definition count_run (l : list (pyval * A)) : result (nat * bool) :=
  match l with
  | [] => Ok (0%nat, false)
  | [_] => Ok (1%nat, false)
  | x0 :: x1 :: r =>
      b <- py_lt x1.1 x0.1;;
      if b then n <- descending_run x1.1 r;; Ok (S (S n), true)
      else n <- ascending_run x1.1 r;; Ok (S (S n), false)
  end.

(** The search of [binarysort] for the place of [pivot] among the sorted
    items, between the indices [l] and [r]. *)
Fixpoint binary_search (fuel : nat) (sorted : list (pyval * A)) (pivot : pyval)
    (l r : nat) : result nat :=
  match fuel with
  | O => Ok l
  | S k =>
      if (l <? r)%nat then
        let p := (l + (r - l) / 2)%nat in
        match sorted !! p with
        | Some y =>
            b <- py_lt pivot y.1;;
            if b then binary_search k sorted pivot l p
            else binary_search k sorted pivot (S p) r
        | None => Ok l
        end
      else Ok l
  end.

(** One turn of [binarysort]: the next item goes into the sorted part. *)
Definition insert_sorted (sorted : list (pyval * A)) (x : pyval * A)
  : result (list (pyval * A)) :=
  i <- binary_search (S (length sorted)) sorted x.1 0 (length sorted);;
  Ok (take i sorted ++ x :: drop i sorted).

Definition sort_pairs (l : list (pyval * A)) : result (list (pyval * A)) :=
  run <- count_run l;;
  let start := take run.1 l in
  for_each insert_sorted (drop run.1 l) (if run.2 then rev start else start).

Definition sort_by (key : A -> result pyval) (l : list A) : result (list A) :=
  keyed <- map_result (fun x => k <- key x;; Ok (k, x)) l;;
  sorted <- sort_pairs keyed;;
  Ok (map snd sorted).
End Sort.

(** [min(l)] and [max(l)] of a non-empty list: the first least, the first
    greatest element. *)
Definition py_min (l : list pyval) : result pyval :=
  match l with
  | [] => Raise ValueError
  | x :: r => for_each (fun cur y => b <- py_lt y cur;; Ok (if b then y else cur)) r x
  end.

Definition py_max (l : list pyval) : result pyval :=
  match l with
  | [] => Raise ValueError
  | x :: r => for_each (fun cur y => b <- py_gt y cur;; Ok (if b then y else cur)) r x
  end.

(** [sum(l)]: starts from the integer 0 and adds the elements from left to
    right, each addition rounded.  (CPython from 3.12 on compensates the
    rounding errors of a float sum; on a list of one element both give the
    element itself added to 0, and no property below depends on the value
    of a sum of several elements.) *)
Definition py_sum (l : list pyval) : result pyval :=
  for_each py_add l (VInt 0).
End PySort.

Import PySort.

(** ** MergeEngine: ranking a price comparison *)

Module Comparison.

Definition price_numeric (x : dict) : pyval := get x "price_numeric" (VInt 0).

(** [((p - lowest) / lowest) * 100] rendered as [f"{diff:.0f}% Higher"]. *)
Definition percent_higher (p lowest : pyval) : result pyval :=
  d <- py_sub p lowest;;
  q <- py_truediv d lowest;;
  diff <- py_mul q (VInt 100);;
  text <- py_format_fixed false 0 diff;;
  Ok (VStr (text ++ py "% Higher")).

Definition set_difference (item : dict) (label : pyval) : dict :=
  <["price_difference" := label]> item.

(** *** The detail page: [_scrape_buyhatke_product_page_for_comparison],
    from the merged [all_prices] on. *)

Definition positive_price (p : dict) : result bool := py_gt (price_numeric p) (VInt 0).

Definition label_page (lowest_price : pyval) (item : dict) : result dict :=
  pos <- positive_price item;;
  higher <- (if pos then py_gt (price_numeric item) lowest_price else Ok false);;
  if higher then label <- percent_higher (price_numeric item) lowest_price;;
                 Ok (set_difference item label)
  else if pos then Ok (set_difference item (VStr (py "Best Price")))
  else Ok (set_difference item (VStr (py "Check Price"))).

(** [all_prices.sort(key=lambda x: x.get('price_numeric', 0) or float('inf'))]
    and the loop that fills [price_difference]. *)
Definition rank_page_prices (all_prices : list dict) : result (list dict) :=
  sorted <- sort_by (fun x => Ok (py_or (price_numeric x) (VFloat f_inf))) all_prices;;
  valid_prices <- filter_result positive_price sorted;;
  match valid_prices with
  | [] => Ok sorted
  | v :: _ => map_result (label_page (price_numeric v)) sorted
  end.

Record comparison := {
  price_comparison : list dict;
  total_platforms : nat;
  lowest_price : pyval;
  highest_price : pyval;
  current_price : pyval
}.

Inductive outcome :=
| Compared (c : comparison)      (* "success": True *)
| NoPriceData                    (* "success": False, "No price data found" *)
| Failed (e : exn).              (* "success": False, the exception's text *)

Definition rupee_rounded (v : pyval) : result pyval :=
  text <- py_format_fixed true 0 v;; Ok (VStr (py "₹" ++ text)).

Definition compare_page_prices (all_prices : list dict) : outcome :=
  match all_prices with
  | [] => NoPriceData
  | _ =>
      match
        ranked <- rank_page_prices all_prices;;
        valid <- filter_result positive_price ranked;;
        let prices := map price_numeric valid in
        lo <- (match prices with
              | [] => Ok (VStr (py "N/A"))
              | _ => m <- py_min prices;; rupee_rounded m
              end);;
        hi <- (match prices with
              | [] => Ok (VStr (py "N/A"))
              | _ => m <- py_max prices;; rupee_rounded m
              end);;
        Ok {| price_comparison := ranked;
              total_platforms := length ranked;
              lowest_price := lo;
              highest_price := hi;
              current_price := match ranked with
                               | x :: _ => get x "price" (VStr (py "N/A"))
                               | [] => VStr (py "N/A")
                               end |}
      with
      | Ok c => Compared c
      | Raise e => Failed e
      end
  end.

(** *** The search path: [_generate_price_comparison_from_search], from
    the list of the best entry per platform on. *)

Definition label_search (lowest_price : pyval) (item : dict) : result dict :=
  p <- getitem item "price_numeric";;
  higher <- py_gt p lowest_price;;
  if higher then label <- percent_higher p lowest_price;; Ok (set_difference item label)
  else Ok (set_difference item (VStr (py "Best Price"))).

(** [price_comparison.sort(key=lambda x: x['price_numeric'])] and the loop
    that fills [price_difference]. *)
Definition rank_search_prices (price_comparison : list dict) : result (list dict) :=
  sorted <- sort_by (fun x => getitem x "price_numeric") price_comparison;;
  match sorted with
  | [] => Ok []
  | first :: _ =>
      lowest_price <- getitem first "price_numeric";;
      map_result (label_search lowest_price) sorted
  end.

(** An entry whose [price_numeric] is the number [n], as an [int] or as a
    [float]. *)
Definition has_price (x : dict) (n : Z) : Prop :=
  x !! "price_numeric" = Some (VInt n) \/ x !! "price_numeric" = Some (VFloat (round_Z n)).

End Comparison.

(** ** PriceHistoryTracker *)

Module History.
Section WithUnicode.
Context {U : Unicode}.

(** [entry.get('price', '').replace('₹', '').replace(',', '')] *)
Definition history_price (entry : dict) : result str :=
  match get entry "price" (VStr []) with
  | VStr s => Ok (replace (py ",") [] (replace (py "₹") [] s))
  | _ => Raise AttributeError
  end.

(** One turn of the loop that fills [prices]: an entry whose price does
    not parse is passed over. *)
Definition collect_price (prices : list pyval) (entry : dict) : result (list pyval) :=
  price_str <- history_price entry;;
  Ok (match py_float price_str with
      | Ok f => prices ++ [VFloat f]
      | Raise _ => prices
      end).

Definition change_text (sign : str) (amount percent : pyval) : result pyval :=
  a <- py_format_fixed true 0 amount;;
  p <- py_format_fixed false 1 percent;;
  Ok (VStr (py "₹" ++ a ++ py " (" ++ sign ++ p ++ py "%)")).

Definition statistics_body (price_history : list dict) : result dict :=
  prices <- for_each collect_price price_history [];;
  match prices with
  | [] => Ok ∅
  | first :: _ =>
      let current := match last price_history with
                     | Some e => get e "price" (VStr (py "N/A"))
                     | None => VStr (py "N/A")
                     end in
      let final := default first (last prices) in
      lowest <- py_min prices;;
      highest <- py_max prices;;
      total <- py_sum prices;;
      average <- py_truediv total (VInt (Z.of_nat (length prices)));;
      lo <- Comparison.rupee_rounded lowest;;
      hi <- Comparison.rupee_rounded highest;;
      av <- Comparison.rupee_rounded average;;
      let stats : dict :=
        <["total_entries" := VInt (Z.of_nat (length price_history))]>
          (<["average_price" := av]>
             (<["highest_price" := hi]>
                (<["lowest_price" := lo]>
                   (<["current_price" := current]> ∅)))) in
      dropped <- (if (1 <? length prices)%nat then py_lt final first else Ok false);;
      if dropped then
        drop <- py_sub first final;;
        q <- py_truediv drop first;;
        drop_percent <- py_mul q (VInt 100);;
        text <- change_text [] drop drop_percent;;
        Ok (<["price_drop" := text]> stats)
      else
        risen <- (if (1 <? length prices)%nat then py_gt final first else Ok false);;
        if risen then
          increase <- py_sub final first;;
          q <- py_truediv increase first;;
          increase_percent <- py_mul q (VInt 100);;
          text <- change_text (py "+") increase increase_percent;;
          Ok (<["price_increase" := text]> stats)
        else Ok stats
  end.

(** [PriceHistoryExtractor.calculate_statistics] *)
Definition calculate_statistics (price_history : list dict) : dict :=
  match price_history with
  | [] => ∅
  | _ =>
      match statistics_body price_history with
      | Ok stats => stats
      | Raise _ => ∅
      end
  end.
End WithUnicode.
End History.

(** ** ProductIdentityMatcher: the relevance filter *)

Module Relevance.
Section WithUnicode.
Context {U : Unicode}.

Definition accessory_keywords : list str :=
  map py
    ["stand"; "holder"; "cable"; "adapter"; "charger"; "case"; "cover";
     "screen protector"; "tempered glass"; "skin"; "sticker"; "mount";
     "bracket"; "dock"; "hub"; "converter"; "connector"; "sleeve";
     "bag"; "pouch"; "strap"; "belt"; "clip"; "ring"; "grip";
     "cleaner"; "wipe"; "cloth"; "kit"; "tool"; "screwdriver";
     "mat"; "pad"; "rest"; "cushion"; "pillow"; "tray";
     "light"; "lamp"; "fan"; "cooler"; "cooling pad";
     "mouse pad"; "keyboard cover"; "webcam cover"; "privacy screen"]%string.

(** The dictionary [main_product_queries], in its insertion order. *)
Definition main_product_queries : list (string * list str) :=
  [("laptop", map py ["laptop"; "notebook"; "macbook"; "thinkpad"; "ideapad";
                      "aspire"; "pavilion"; "inspiron"]);
   ("phone", map py ["phone"; "iphone"; "galaxy"; "pixel"; "oneplus"; "realme";
                     "oppo"; "vivo"; "mi"; "redmi"]);
   ("tablet", map py ["tablet"; "ipad"; "galaxy tab"; "surface"]);
   ("headphone", map py ["headphone"; "earphone"; "earbud"; "airpods"; "headset"]);
   ("watch", map py ["watch"; "smartwatch"; "apple watch"; "galaxy watch"]);
   ("camera", map py ["camera"; "dslr"; "mirrorless"; "gopro"; "canon"; "nikon";
                      "sony camera"]);
   ("tv", map py ["tv"; "television"; "smart tv"; "led tv"; "oled"; "qled"]);
   ("speaker", map py ["speaker"; "bluetooth speaker"; "smart speaker";
                       "soundbar"])]%string.

(** [any(k in text for k in keywords)] *)
Definition any_in (keywords : list str) (text : str) : bool :=
  existsb (fun k => contains k text) keywords.

(** [sum(1 for k in keywords if k in text)] *)
Definition count_in (keywords : list str) (text : str) : nat :=
  length (List.filter (fun k => contains k text) keywords).

(** The first category one of whose keywords occurs in the query. *)
Definition matching_category (query_lower : str) : option (string * list str) :=
  List.find (fun ck => any_in ck.2 query_lower) main_product_queries.

(** [OllamaBuyHatkeScraper._is_relevant_product] *)
Definition _is_relevant_product (product_name query : str) : bool :=
  let product_lower := lower product_name in
  let query_lower := lower query in
  let accessory_score := count_in accessory_keywords product_lower in
  match matching_category query_lower with
  | Some (category, main_keywords) =>
      let has_main_keyword := any_in main_keywords product_lower in
      if String.eqb category "laptop" then
        let laptop_terms :=
          map py ["laptop"; "notebook"; "macbook"; "book"; "ideapad"; "thinkpad";
                  "pavilion"; "inspiron"; "aspire"; "vivobook"; "zenbook";
                  "gaming laptop"]%string in
        let has_laptop_term := any_in laptop_terms product_lower in
        if (2 <=? accessory_score)%nat
           || any_in (map py ["stand"; "bag"; "sleeve"; "cooling pad"; "mat";
                              "charger"; "cable"; "hdmi"; "usb"]%string) product_lower
        then false
        else has_laptop_term
      else if String.eqb category "phone" then
        let phone_terms :=
          map py ["phone"; "iphone"; "galaxy"; "pixel"; "oneplus"; "realme"; "oppo";
                  "vivo"; "mi"; "redmi"; "nothing phone"; "smartphone"]%string in
        let has_phone_term := any_in phone_terms product_lower in
        if (1 <=? accessory_score)%nat
           || any_in (map py ["case"; "cover"; "screen protector"; "charger";
                              "adapter"]%string) product_lower
        then false
        else if any_in (map py ["tv"; "television"; "smart tv"; "qled"; "led tv";
                                "oled"; "inch)"; "cm ("; "display"]%string)
                  product_lower
        then false
        else has_phone_term
      else if String.eqb category "headphone" then
        let headphone_terms :=
          map py ["headphone"; "earphone"; "earbud"; "airpods"; "headset";
                  "wireless"; "bluetooth"; "noise cancelling"]%string in
        let has_headphone_term := any_in headphone_terms product_lower in
        if any_in (map py ["stand"; "case"; "adapter"; "cable"; "jack"]%string)
             product_lower
        then false
        else has_headphone_term
      else has_main_keyword && (accessory_score <? 2)%nat
  | None => (accessory_score <? 2)%nat
  end.
End WithUnicode.
End Relevance.

(** ** StructuredDataExtractor: [_extract_json_data] *)

Module Extract.

(** *** The pattern scans

    Each of the five patterns is an identifier (a letter, [_] or [$], then
    letters, digits, [_] and [$]), the literal [.field=], and a run of
    characters other than one stop character (between double quotes, or up
    to a semicolon).  Every repetition
    in them is followed by a character it cannot contain, so the greedy
    match is the only one. *)

Definition is_letter (c : N) : bool :=
  ((65 <=? c) && (c <=? 90) || (97 <=? c) && (c <=? 122))%N.
Definition ident_start (c : N) : bool := is_letter c || (c =? 95)%N || (c =? 36)%N.
Definition ident_char (c : N) : bool := ident_start c || is_ascii_digit c.

(** The longest prefix whose characters satisfy [p], and the rest. *)
Fixpoint span (p : N -> bool) (s : str) : str * str :=
  match s with
  | c :: r => if p c then let '(a, b) := span p r in (c :: a, b) else ([], s)
  | [] => ([], [])
  end.

Definition quote : N := 34%N.

(** One attempt at the start of [s].  [quoted] tells whether the value is
    between double quotes (and stops at one) or runs up to a semicolon;
    [nonempty] whether the value needs a character.  The result is the
    variable, the value and the length of the match. *)
Definition match_field (field : str) (quoted nonempty : bool) (s : str)
  : option ((str * str) * nat) :=
  match s with
  | c :: r =>
      if ident_start c then
        let '(tail, r1) := span ident_char r in
        let var := c :: tail in
        let lit := py "." ++ field ++ py "=" ++ (if quoted then [quote] else []) in
        if startswith lit r1 then
          let stop := if quoted then quote else 59%N in
          let '(value, r2) := span (fun x => negb (x =? stop)%N) (drop (length lit) r1) in
          if nonempty && match value with [] => true | _ => false end then None
          else if quoted then
            match r2 with
            | q :: _ =>
                if (q =? quote)%N
                then Some ((var, value), (length var + length lit + length value + 1)%nat)
                else None
            | [] => None
            end
          else Some ((var, value), (length var + length lit + length value)%nat)
        else None
      else None
  | [] => None
  end.

(** [re.findall]: the matches from left to right, none overlapping. *)
Fixpoint findall_go {A : Type} (m : str -> option (A * nat)) (skip : nat) (s : str)
  : list A :=
  match s with
  | [] => []
  | _ :: r =>
      match skip with
      | S k => findall_go m k r
      | O =>
          match m s with
          | Some (a, len) => a :: findall_go m (Nat.pred len) r
          | None => findall_go m 0 r
          end
      end
  end.

Definition findall (field : str) (quoted nonempty : bool) (html : str)
  : list (str * str) :=
  findall_go (match_field field quoted nonempty) 0 html.

(** *** Dictionaries keyed by the variable name

    [prod_dict] is iterated, so its order matters: a key keeps the place
    of its first insertion and the value of its last. *)
Fixpoint odict_set (k v : str) (d : list (str * str)) : list (str * str) :=
  match d with
  | [] => [(k, v)]
  | (k', v') :: r => if str_eqb k k' then (k, v) :: r else (k', v') :: odict_set k v r
  end.

Definition odict_of (l : list (str * str)) : list (str * str) :=
  fold_left (fun d kv => odict_set kv.1 kv.2 d) l [].

(** The other dictionaries are only looked up: the last value wins. *)
Definition dict_of (l : list (str * str)) : gmap str str :=
  fold_left (fun d kv => <[kv.1 := kv.2]> d) l ∅.

Record match_data := {
  prod_name : str;
  price_str : str;
  site_image : str;
  link : str;
  image : str;
  popularity_str : str;
  is_active_str : str;
  product_id : str
}.

(** The complete products: a name and a link under one variable. *)
Definition product_matches (html_content : str) : list match_data :=
  let prod_dict := odict_of (findall (py "prod") true true html_content) in
  let link_dict := dict_of (findall (py "link") true true html_content) in
  let price_dict := dict_of (findall (py "price") false true html_content) in
  let image_dict := dict_of (findall (py "image") true false html_content) in
  let site_image_dict := dict_of (findall (py "siteImage") true false html_content) in
  flat_map
    (fun '(var_name, name) =>
       match link_dict !! var_name with
       | Some url =>
           [{| prod_name := name;
               price_str := default (py "0") (price_dict !! var_name);
               site_image := default [] (site_image_dict !! var_name);
               link := url;
               image := default [] (image_dict !! var_name);
               popularity_str := py "0";
               is_active_str := py "1";
               product_id := py "0" |}]
       | None => []
       end)
    prod_dict.

(** *** Platforms and quotas *)

Inductive platform :=
| Amazon | Flipkart | Myntra | Tatacliq | Ajio | Nykaa | Paytm | Snapdeal
| ShopClues | Croma | RelianceDigital | VijaySales | BuyHatke.

#[export] Instance platform_eq_dec : EqDecision platform.
Proof. solve_decision. Defined.

Definition platform_name (p : platform) : str :=
  py match p with
     | Amazon => "Amazon" | Flipkart => "Flipkart" | Myntra => "Myntra"
     | Tatacliq => "Tatacliq" | Ajio => "Ajio" | Nykaa => "Nykaa"
     | Paytm => "Paytm" | Snapdeal => "Snapdeal" | ShopClues => "ShopClues"
     | Croma => "Croma" | RelianceDigital => "Reliance Digital"
     | VijaySales => "Vijay Sales" | BuyHatke => "BuyHatke"
     end%string.

(** The chain of [if 'amazon' in site_info: ... elif ...]. *)
Definition classify (site_info : str) : platform :=
  let has k := contains (py k) site_info in
  if has "amazon"%string then Amazon
  else if has "flipkart"%string then Flipkart
  else if has "myntra"%string then Myntra
  else if has "tatacliq"%string || has "tata_cliq"%string then Tatacliq
  else if has "ajio"%string then Ajio
  else if has "nykaa"%string then Nykaa
  else if has "paytm"%string then Paytm
  else if has "snapdeal"%string then Snapdeal
  else if has "shopclues"%string then ShopClues
  else if has "croma"%string then Croma
  else if has "reliance"%string then RelianceDigital
  else if has "vijaysales"%string then VijaySales
  else BuyHatke.

Definition max_per_platform : nat := 25.
Definition max_products : nat := 60.

(** The accumulators of the loop. *)
Record state := {
  products : list dict;
  amazon_count : nat;
  flipkart_count : nat;
  others_count : nat
}.

Definition initial : state :=
  {| products := []; amazon_count := 0; flipkart_count := 0; others_count := 0 |}.

(** The counter a platform is charged to. *)
Definition counter_of (p : platform) (st : state) : nat :=
  match p with
  | Amazon => amazon_count st
  | Flipkart => flipkart_count st
  | _ => others_count st
  end.

Definition bump (p : platform) (st : state) : state :=
  match p with
  | Amazon => {| products := products st; amazon_count := S (amazon_count st);
                 flipkart_count := flipkart_count st; others_count := others_count st |}
  | Flipkart => {| products := products st; amazon_count := amazon_count st;
                   flipkart_count := S (flipkart_count st);
                   others_count := others_count st |}
  | _ => {| products := products st; amazon_count := amazon_count st;
            flipkart_count := flipkart_count st; others_count := S (others_count st) |}
  end.

Definition append_product (product : dict) (st : state) : state :=
  {| products := products st ++ [product]; amazon_count := amazon_count st;
     flipkart_count := flipkart_count st; others_count := others_count st |}.

(** The status and its CSS class. *)
Definition availability (is_active price popularity : Z) : string * string :=
  if is_active =? 0 then ("Out of Stock", "out-of-stock")%string
  else if price =? 0 then ("Price Not Available", "price-unavailable")%string
  else if popularity <? 10 then ("Limited Stock", "limited-stock")%string
  else ("Available", "available")%string.

(** Helpers of the scraper that only build a display field from strings;
    none of them raises.  [slug_words] is
    [re.sub(r'[^\w\s-]', '', name).split()[:8]]; [now i] is the clock read
    while the record of index [i] is built. *)
Class Helpers := {
  _validate_image_url : str -> str -> str;
  _generate_buyhatke_detail_url : str -> str -> str -> pyval;
  slug_words : str -> list str;
  now : nat -> str
}.

Section WithContext.
Context {U : Unicode} {H : Helpers}.

Definition site_info (m : match_data) : str :=
  lower (site_image m ++ py " " ++ link m).

Definition platform_of (m : match_data) : platform := classify (site_info m).

(** [int(s) if s.isdigit() else d] *)
Definition int_or (s : str) (d : Z) : result Z :=
  if isdigit s then py_int s else Ok d.

Fixpoint join (sep : str) (l : list str) : str :=
  match l with
  | [] => []
  | [x] => x
  | x :: r => x ++ sep ++ join sep r
  end.

Definition detail_url (m : match_data) (p : platform) (link_cleaned : str) : pyval :=
  if truthy (VStr (product_id m)) && bool_decide (p = Amazon \/ p = Flipkart) then
    let category_id :=
      if contains (py "headphone") (lower (prod_name m)) then py "63"
      else py "electronics" in
    let slug_parts :=
      [lower (platform_name p)] ++ slug_words (lower (prod_name m))
        ++ [py "price-in-india"] in
    VStr (py "https://buyhatke.com/" ++ join (py "-") slug_parts ++ py "-"
            ++ category_id ++ py "-" ++ product_id m)
  else if startswith (py "/") link_cleaned then
    VStr (py "https://buyhatke.com" ++ link_cleaned)
  else _generate_buyhatke_detail_url link_cleaned (prod_name m) (platform_name p).

(** The body of the loop after the quota test, up to the record. *)
Definition build_product (i : nat) (m : match_data) (p : platform) : result dict :=
  price <- Price.price_of_field (price_str m);;
  let formatted_price := Price.formatted_price price in
  popularity <- int_or (popularity_str m) 0;;
  is_active <- int_or (is_active_str m) 1;;
  let '(availability_status, availability_class) :=
    availability is_active price popularity in
  let validated_image_url := _validate_image_url (strip (image m)) (prod_name m) in
  let original_image_url := strip (image m) in
  let link_cleaned := strip (link m) in
  Ok (<["id" := VStr (py "json_product_" ++ str_of_Z (Z.of_nat i + 1))]>
     (<["name" := VStr (strip (prod_name m))]>
     (<["price" := VStr formatted_price]>
     (<["platform" := VStr (platform_name p)]>
     (<["url" := VStr link_cleaned]>
     (<["buyhatke_detail_url" := detail_url m p link_cleaned]>
     (<["image_url" := VStr validated_image_url]>
     (<["original_image_url" := VStr original_image_url]>
     (<["uses_placeholder" := VBool true]>
     (<["extracted_at" := VStr (now i)]>
     (<["extraction_method" := VStr (py "json_data")]>
     (<["popularity" := VInt popularity]>
     (<["is_active" := VInt is_active]>
     (<["availability_status" := VStr (py availability_status)]>
     (<["availability_class" := VStr (py availability_class)]>
        ∅))))))))))))))).

(** The test that lets a record into the result:
    [_is_relevant_product(name, query) and name and len(name) > 5]. *)
Definition admitted (query : str) (name : str) : bool :=
  Relevance._is_relevant_product name query
    && truthy (VStr name) && (5 <? length name)%nat.

Inductive control :=
| Next (st : state)       (* go on with the next match *)
| Stop (st : state).      (* [break] *)

(** One turn of the loop over [enumerate(product_matches)]. *)
Definition step (query : str) (i : nat) (m : match_data) (st : state) : control :=
  let p := platform_of m in
  if (max_per_platform <=? counter_of p st)%nat then Next st
  else
    let st := bump p st in
    match build_product i m p with
    | Raise _ => Next st                     (* except: continue *)
    | Ok product =>
        if admitted query (strip (prod_name m)) then
          let st := append_product product st in
          if (max_products <=? length (products st))%nat then Stop st else Next st
        else Next st
    end.

Fixpoint extract_loop (query : str) (i : nat) (ms : list match_data) (st : state)
  : list dict :=
  match ms with
  | [] => products st
  | m :: r =>
      match step query i m st with
      | Next st' => extract_loop query (S i) r st'
      | Stop st' => products st'
      end
  end.

(** [OllamaBuyHatkeScraper._extract_json_data].  Nothing outside the loop
    raises, so the outer handler is never entered. *)
Definition _extract_json_data (html_content query : str) : list dict :=
  extract_loop query 0 (product_matches html_content) initial.

Definition has_platform (p : platform) (product : dict) : bool :=
  bool_decide (product !! "platform" = Some (VStr (platform_name p))).

(** A match classified as the platform [p]. *)
Definition is_platform (p : platform) (m : match_data) : bool :=
  bool_decide (platform_of m = p).

(** The price field of a match converts without an exception. *)
Definition price_reads (m : match_data) : bool :=
  negb (raises (Price.price_of_field (price_str m))).

(** The relevance filter alone, and the whole way of a match into the
    result. *)
Definition passes_relevance (query : str) (m : match_data) : bool :=
  Relevance._is_relevant_product (strip (prod_name m)) query.

Definition goes_in (query : str) (m : match_data) : bool :=
  admitted query (strip (prod_name m)) && price_reads m.

(** The loop keeps: the Amazon records are as many as the Amazon counter,
    the records no more than the three counters together, and two counters
    within the quota. *)
Definition quota_invariant (st : state) : Prop :=
  length (List.filter (has_platform Amazon) (products st)) = amazon_count st
  /\ (length (products st) <= amazon_count st + flipkart_count st + others_count st)%nat
  /\ (amazon_count st <= max_per_platform)%nat
  /\ (others_count st <= max_per_platform)%nat.

Definition name_of (product : dict) : pyval := get product "name" VNone.

(** The constants that [product_matches] gives every match. *)
Definition well_formed_match (m : match_data) : Prop :=
  popularity_str m = py "0" /\ is_active_str m = py "1".

Definition flag (b : bool) : nat := if b then 1%nat else 0%nat.
End WithContext.
End Extract.

(** ** SearchOrchestrator: [_extract_with_ollama] and [search_products] *)

Module Orchestrator.

(** What the scraper does to the outside world, in the order it does it. *)
Inductive event :=
| EvFetch (query : str)                        (* the GET of the search page *)
| EvGroq (html_content query : str)            (* the generative extractor *)
| EvWriteXml (products : list dict).           (* the XML report *)

(** The collaborators of the orchestrator.  The page fetch gives [None]
    for every failure; the markup and the generative extractors catch
    their own exceptions and give a list; writing the report can fail. *)
Class World := {
  fetch_page : str -> option str;
  _extract_retailer_url_mapping : str -> gmap str str;
  _extract_html_products : str -> str -> gmap str str -> list dict;
  groq_client : bool;
  _extract_with_ollama_batched : str -> str -> list dict;
  _create_xml_file : list dict -> str -> str -> result str;
  timestamp : str
}.

(** A computation that may raise and that logs its events. *)
Definition io (A : Type) : Type := list event -> result A * list event.

Definition io_ret {A} (a : A) : io A := fun t => (Ok a, t).

Definition io_bind {A B} (m : io A) (k : A -> io B) : io B :=
  fun t => match m t with
           | (Ok a, t') => k a t'
           | (Raise e, t') => (Raise e, t')
           end.

Definition emit (e : event) : io unit := fun t => (Ok tt, t ++ [e]).

Definition lift {A} (r : result A) : io A := fun t => (r, t).

(** [try: body  except Exception: handler]; the events of the body stay. *)
Definition io_try {A} (body : io A) (handler : exn -> io A) : io A :=
  fun t => match body t with
           | (Ok a, t') => (Ok a, t')
           | (Raise e, t') => handler e t'
           end.

Declare Scope io_scope.
Delimit Scope io_scope with io.
Notation "x <~ m ;; k" := (io_bind m (fun x => k))
  (at level 100, m at next level, right associativity) : io_scope.
Notation "m ;;; k" := (io_bind m (fun _ => k))
  (at level 100, right associativity) : io_scope.
Open Scope io_scope.

Definition groq_invoked (t : list event) : bool :=
  existsb (fun e => match e with EvGroq _ _ => true | _ => false end) t.

Section WithContext.
Context {U : Unicode} {H : Extract.Helpers} {W : World}.

Definition nonempty {A} (l : list A) : bool :=
  match l with [] => false | _ => true end.

(** [OllamaBuyHatkeScraper._extract_with_ollama] *)
Definition _extract_with_ollama (html_content query : str) : io (list dict) :=
  io_try
    (let json_products := Extract._extract_json_data html_content query in
     if nonempty json_products then io_ret json_products
     else
       let url_mapping := _extract_retailer_url_mapping html_content in
       let html_products := _extract_html_products html_content query url_mapping in
       if nonempty html_products then io_ret html_products
       else if groq_client then
         emit (EvGroq html_content query);;;
         let ollama_products := _extract_with_ollama_batched html_content query in
         if nonempty ollama_products then io_ret ollama_products else io_ret []
       else io_ret [])
    (fun _ => io_ret []).

(** [OllamaBuyHatkeScraper._create_fallback_products] *)
Definition _create_fallback_products (query : str) : list dict :=
  [ <["id" := VStr (py "fallback_1")]>
   (<["name" := VStr (query ++ py " - AI Extraction Failed (Sample 1)")]>
   (<["price" := VStr (py "₹25,999")]>
   (<["platform" := VStr (py "Amazon")]>
   (<["url" := VStr (py "https://amazon.in/sample")]>
   (<["image_url" := VStr (py "https://example.com/image.jpg")]>
   (<["extracted_at" := VStr timestamp]>
   (<["extraction_method" := VStr (py "fallback")]> ∅))))))) ].

(** [OllamaBuyHatkeScraper.search_products]: [None] when the page cannot
    be fetched, the products otherwise. *)
Definition search_products (query : str) : io (option (list dict)) :=
  emit (EvFetch query);;;
  match fetch_page query with
  | None => io_ret None
  | Some html_content =>
      if negb (truthy (VStr html_content)) then io_ret None
      else
        extracted <~ _extract_with_ollama html_content query;;
        let products :=
          if negb (nonempty extracted) then _create_fallback_products query
          else extracted in
        emit (EvWriteXml products);;;
        _ <~ lift (_create_xml_file products query html_content);;
        io_ret (Some products)
  end.

(** Every extraction strategy gives no record on this page. *)
Definition all_strategies_empty (html_content query : str) : Prop :=
  Extract._extract_json_data html_content query = []
  /\ _extract_html_products html_content query
       (_extract_retailer_url_mapping html_content) = []
  /\ (groq_client = true -> _extract_with_ollama_batched html_content query = []).
End WithContext.
End Orchestrator.

(** ** ImageValidator: [_validate_image_url] and the functions it calls *)

Module Images.

(** [d.get(k)] for a dictionary written out in the code, with string keys. *)
Definition lookup_literal {A : Type} (k : str) (d : list (string * A)) : option A :=
  option_map snd (List.find (fun kv => str_eqb (py kv.1) k) d).

(** The first block that returns; [otherwise] when none does. *)
Definition first_return (blocks : list (option str)) (otherwise : str) : str :=
  match List.find (fun b => match b with Some _ => true | None => false end) blocks with
  | Some (Some url) => url
  | _ => otherwise
  end.

(** [s.upper()] for the category names, which are lower-case ASCII words. *)
Definition ascii_upper (s : str) : str :=
  map (fun c => if ((97 <=? c) && (c <=? 122))%N then (c - 32)%N else c) s.

Section WithUnicode.
Context {U : Unicode}.

(** [any(k in text for k in keywords)] over literal keywords. *)
Definition any_of (keywords : list string) (text : str) : bool :=
  Relevance.any_in (map py keywords) text.

Definition has (keyword : string) (text : str) : bool := contains (py keyword) text.

(** [OllamaBuyHatkeScraper._get_search_based_image] *)
Definition brands : list (string * string) :=
  [("apple", "Apple"); ("macbook", "Apple"); ("iphone", "Apple"); ("ipad", "Apple");
   ("samsung", "Samsung"); ("galaxy", "Samsung");
   ("lenovo", "Lenovo"); ("thinkpad", "Lenovo"); ("ideapad", "Lenovo");
   ("asus", "ASUS"); ("acer", "Acer"); ("hp", "HP"); ("dell", "Dell");
   ("sony", "Sony"); ("nike", "Nike"); ("adidas", "Adidas");
   ("oneplus", "OnePlus"); ("oppo", "OPPO"); ("vivo", "Vivo");
   ("xiaomi", "Xiaomi"); ("realme", "Realme"); ("motorola", "Motorola");
   ("boat", "boAt"); ("jbl", "JBL"); ("bose", "Bose")]%string.

Definition categories : list (list string * string) :=
  [(["laptop"; "macbook"; "thinkpad"; "notebook"; "ultrabook"], "Laptop");
   (["phone"; "iphone"; "galaxy"; "mobile"; "smartphone"], "Phone");
   (["headphone"; "earphone"; "airpods"; "headset"; "earbuds"], "Audio");
   (["tablet"; "ipad"], "Tablet");
   (["watch"; "smartwatch"], "Watch");
   (["speaker"; "soundbar"], "Speaker");
   (["keyboard"; "mouse"], "Accessory");
   (["shoes"; "sneakers"; "footwear"; "running"; "casual"], "Shoes");
   (["shirt"; "tshirt"; "t-shirt"; "top"], "Clothing");
   (["jeans"; "pants"; "trousers"], "Clothing");
   (["dress"; "kurta"; "saree"], "Clothing");
   (["bag"; "backpack"; "handbag"], "Bag");
   (["bottle"; "flask"; "tumbler"], "Bottle");
   (["kitchen"; "cookware"; "utensil"], "Kitchen");
   (["furniture"; "chair"; "table"], "Furniture");
   (["makeup"; "cosmetic"; "lipstick"], "Beauty");
   (["skincare"; "cream"; "lotion"], "Skincare");
   (["perfume"; "fragrance"], "Fragrance");
   (["book"; "novel"; "textbook"], "Book");
   (["game"; "gaming"], "Gaming")]%string.

Definition color_schemes : list (string * (string * string)) :=
  [("Phone", ("4f46e5", "ffffff"));
   ("Laptop", ("1f2937", "ffffff"));
   ("Audio", ("dc2626", "ffffff"));
   ("Shoes", ("059669", "ffffff"));
   ("Clothing", ("7c3aed", "ffffff"));
   ("Beauty", ("ec4899", "ffffff"));
   ("Kitchen", ("ea580c", "ffffff"))]%string.

Definition _get_search_based_image (product_name : str) : str :=
  let name_lower := lower product_name in
  let brand :=
    match List.find (fun b => has b.1 name_lower) brands with
    | Some (_, brand_name) => py brand_name
    | None => py "Product"
    end in
  let category :=
    match List.find (fun c => any_of c.1 name_lower) categories with
    | Some (_, cat_name) => py cat_name
    | None => []
    end in
  let category := if negb (truthy (VStr category)) then py "Item" else category in
  let text :=
    if negb (str_eqb brand (py "Product")) then brand ++ py "+" ++ category
    else category in
  let '(bg_color, text_color) :=
    default ("6b7280", "ffffff")%string (lookup_literal category color_schemes) in
  let text_encoded := replace (py "&") (py "and") (replace (py " ") (py "+") text) in
  py "https://via.placeholder.com/300x200/" ++ py bg_color ++ py "/" ++ py text_color
    ++ py "?text=" ++ text_encoded.

(** [OllamaBuyHatkeScraper._get_fallback_image] *)
Definition _get_fallback_image (product_name : str) : str :=
  _get_search_based_image product_name.

(** [OllamaBuyHatkeScraper._image_matches_product]; [_validate_image_url]
    only logs its answer. *)
Definition _image_matches_product (image_url product_name : str) : bool :=
  let url_lower := lower image_url in
  if any_of ["amazon.com"; "amazonaws.com"; "media-amazon.com"; "ssl-images-amazon.com";
             "flipkart.com"; "flixcart.com"; "myntra.com"; "snapdeal.com";
             "shopclues.com"; "paytm.com"; "tatacliq.com"]%string url_lower
  then true
  else
    let name_lower := lower product_name in
    negb (has "phone" name_lower && has "laptop" url_lower
          || has "laptop" name_lower && has "phone" url_lower
          || has "headphone" name_lower && has "laptop" url_lower).

(** [OllamaBuyHatkeScraper._get_product_category] *)
Definition _get_product_category (product_name : str) : str :=
  let product_name_lower := lower product_name in
  if any_of ["ipad"; "tablet"; "galaxy tab"]%string product_name_lower then py "tablet"
  else if any_of ["iphone"; "phone"; "mobile"]%string product_name_lower then py "phone"
  else if has "galaxy" product_name_lower && negb (has "tab" product_name_lower)
  then py "phone"
  else if any_of ["macbook"; "laptop"; "thinkpad"; "computer"]%string product_name_lower
  then py "laptop"
  else if any_of ["watch"; "smartwatch"]%string product_name_lower then py "watch"
  else if any_of ["airpods"; "headphone"; "earphone"; "speaker"]%string product_name_lower
  then py "headphone"
  else py "unknown".

(** [OllamaBuyHatkeScraper._detect_category_mismatch] *)
Definition mismatch_patterns : list (string * list string) :=
  [("phone", ["laptop"; "computer"; "headphone"; "watch"; "tablet"]);
   ("laptop", ["phone"; "mobile"; "headphone"; "watch"; "mouse"]);
   ("watch", ["phone"; "laptop"; "headphone"; "tablet"]);
   ("headphone", ["phone"; "laptop"; "watch"; "tablet"]);
   ("tablet", ["phone"; "laptop"; "headphone"; "watch"])]%string.

Definition _detect_category_mismatch (product_name image_url : str) : bool :=
  let product_category := _get_product_category product_name in
  let image_lower := lower image_url in
  match lookup_literal product_category mismatch_patterns with
  | Some conflicting_categories => any_of conflicting_categories image_lower
  | None => false
  end.

(** [OllamaBuyHatkeScraper._get_correct_category_image]: for every category,
    the images of specific products in the order of the dictionary, and
    the image under the key ['default'], which the loop passes over. *)
Definition category_images : list (string * (list (string * string) * string)) :=
  [("phone",
    ([("iphone 15", "https://m.media-amazon.com/images/I/61bK6PMOC3L._AC_SX679_.jpg");
      ("iphone 14", "https://m.media-amazon.com/images/I/61cwywLZR-L._AC_SX679_.jpg");
      ("iphone", "https://m.media-amazon.com/images/I/61bK6PMOC3L._AC_SX679_.jpg");
      ("galaxy s24", "https://m.media-amazon.com/images/I/81M4zm2+0FL._AC_SX679_.jpg");
      ("samsung", "https://m.media-amazon.com/images/I/81M4zm2+0FL._AC_SX679_.jpg")],
     "https://m.media-amazon.com/images/I/61bK6PMOC3L._AC_SX679_.jpg"));
   ("laptop",
    ([("macbook pro", "https://m.media-amazon.com/images/I/71jG+e7roXL._AC_SX679_.jpg");
      ("macbook air", "https://m.media-amazon.com/images/I/71TPda7cwUL._AC_SX679_.jpg");
      ("thinkpad", "https://m.media-amazon.com/images/I/61XNwc6PjzL._AC_SX679_.jpg")],
     "https://m.media-amazon.com/images/I/71jG+e7roXL._AC_SX679_.jpg"));
   ("watch",
    ([("apple watch", "https://m.media-amazon.com/images/I/71u+9F4LY1L._AC_SX679_.jpg")],
     "https://m.media-amazon.com/images/I/71u+9F4LY1L._AC_SX679_.jpg"));
   ("headphone",
    ([("airpods pro", "https://m.media-amazon.com/images/I/7120GgUKj3L._AC_SX679_.jpg");
      ("airpods", "https://m.media-amazon.com/images/I/61SUj2aKoEL._AC_SX679_.jpg")],
     "https://m.media-amazon.com/images/I/7120GgUKj3L._AC_SX679_.jpg"));
   ("tablet",
    ([("ipad pro", "https://m.media-amazon.com/images/I/81Vctfy%2BgqL._AC_SX679_.jpg");
      ("ipad", "https://m.media-amazon.com/images/I/61uA2UVnYWL._AC_SX679_.jpg");
      ("galaxy tab s9", "https://m.media-amazon.com/images/I/71MPNG6xzpL._AC_SX679_.jpg");
      ("galaxy tab s10", "https://m.media-amazon.com/images/I/71MPNG6xzpL._AC_SX679_.jpg");
      ("galaxy tab a9", "https://m.media-amazon.com/images/I/71MPNG6xzpL._AC_SX679_.jpg");
      ("galaxy tab", "https://m.media-amazon.com/images/I/71MPNG6xzpL._AC_SX679_.jpg");
      ("samsung", "https://m.media-amazon.com/images/I/71MPNG6xzpL._AC_SX679_.jpg")],
     "https://m.media-amazon.com/images/I/61uA2UVnYWL._AC_SX679_.jpg"))]%string.

Definition _get_correct_category_image (product_name : str) : str :=
  let category := _get_product_category product_name in
  match lookup_literal category category_images with
  | Some (specific, default_image) =>
      match List.find (fun kv => negb (String.eqb kv.1 "default") && has kv.1 product_name)
              specific with
      | Some (_, image_url) => py image_url
      | None => py default_image
      end
  | None =>
      py "https://via.placeholder.com/400x400/f8f9fa/6c757d?text=📦+" ++ ascii_upper category
  end.

(** [OllamaBuyHatkeScraper._is_image_url_valid] *)
Definition _is_image_url_valid (image_url : str) : bool :=
  if negb (truthy (VStr image_url)) || (length image_url <? 10)%nat then false
  else any_of ["amazon.com/images/"; "flixcart.com/image/"; "rukminim"; ".jpg"; ".png";
               ".jpeg"; ".webp"]%string (lower image_url).

(** [OllamaBuyHatkeScraper._get_category_fallback_image] *)
Definition fallback_images : list (string * string) :=
  [("phone", "https://via.placeholder.com/400x400/e3f2fd/1565c0?text=📱+PHONE");
   ("laptop", "https://via.placeholder.com/400x400/f3e5f5/7b1fa2?text=💻+LAPTOP");
   ("tablet", "https://via.placeholder.com/400x400/e8f5e8/2e7d32?text=📱+TABLET");
   ("headphone", "https://via.placeholder.com/400x400/fff3e0/ef6c00?text=🎧+AUDIO");
   ("watch", "https://via.placeholder.com/400x400/fce4ec/c2185b?text=⌚+WATCH")]%string.

Definition _get_category_fallback_image (product_name : str) : str :=
  let category := _get_product_category product_name in
  py (default "https://via.placeholder.com/400x400/f5f5f5/9e9e9e?text=📦+PRODUCT"%string
        (lookup_literal category fallback_images)).

(** *** [_fix_known_image_issues], block by block

    Each block of the function either returns an address or lets the next
    block decide. *)

(** [any(domain in image_url for domain in ['amazon.com', 'flixcart.com', 'rukminim'])] *)
Definition from_retailer (image_url : str) : bool :=
  any_of ["amazon.com"; "flixcart.com"; "rukminim"]%string image_url.

Definition fix_category_mismatch (image_url product_lower : str) : option str :=
  if any_of ["iphone"; "macbook"; "galaxy"; "airpods"; "ipad"; "thinkpad"]%string product_lower
  then if _detect_category_mismatch product_lower image_url
       then Some (_get_correct_category_image product_lower)
       else None
  else None.

Definition problematic_iphones : list (string * string) :=
  [("71657TiFeHL", "https://m.media-amazon.com/images/I/61bK6PMOC3L._AC_SX679_.jpg");
   ("618vU2qKXQL", "https://m.media-amazon.com/images/I/71xb2xkN5qL._AC_SX679_.jpg")]%string.

Definition fix_iphone (image_url product_lower : str) : option str :=
  if has "iphone" product_lower then
    match (if has "iphone 15" product_lower
           then List.find (fun known => has known.1 image_url) problematic_iphones
           else None) with
    | Some (_, replacement) => Some (py replacement)
    | None =>
        if any_of ["14pro"; "camera-bump"]%string (lower image_url)
        then if has "15" product_lower
             then Some (py "https://m.media-amazon.com/images/I/61bK6PMOC3L._AC_SX679_.jpg")
             else None
        else None
    end
  else None.

Definition fix_samsung (image_url product_lower : str) : option str :=
  if has "galaxy" product_lower || has "samsung" product_lower then
    if negb (from_retailer image_url) then
      if has "s24" product_lower || has "galaxy s24" product_lower
      then Some (py "https://m.media-amazon.com/images/I/81M4zm2+0FL._AC_SX679_.jpg")
      else if has "galaxy tab" product_lower
      then Some (py "https://m.media-amazon.com/images/I/71MPNG6xzpL._AC_SX679_.jpg")
      else if has "samsung" product_lower
      then Some (py "https://m.media-amazon.com/images/I/71Nwtop9jtL._AC_SX679_.jpg")
      else None
    else Some image_url
  else None.

Definition fix_laptop (image_url product_lower : str) : option str :=
  if has "macbook" product_lower || has "laptop" product_lower then
    if negb (from_retailer image_url) then
      if has "macbook pro" product_lower
      then Some (py "https://m.media-amazon.com/images/I/71jG+e7roXL._AC_SX679_.jpg")
      else if has "macbook air" product_lower
      then Some (py "https://m.media-amazon.com/images/I/71TPda7cwUL._AC_SX679_.jpg")
      else if has "thinkpad" product_lower
      then Some (py "https://m.media-amazon.com/images/I/61XNwc6PjzL._AC_SX679_.jpg")
      else None
    else Some image_url
  else None.

Definition fix_audio (image_url product_lower : str) : option str :=
  if any_of ["headphone"; "earphone"; "airpods"; "audio"; "speaker"]%string product_lower then
    if negb (from_retailer image_url) || _detect_category_mismatch product_lower image_url then
      if has "airpods pro" product_lower
      then Some (py "https://m.media-amazon.com/images/I/7120GgUKj3L._AC_SX679_.jpg")
      else if has "airpods" product_lower
      then Some (py "https://m.media-amazon.com/images/I/61SUj2aKoEL._AC_SX679_.jpg")
      else if has "sony" product_lower
              && (has "wh" product_lower || has "headphone" product_lower)
      then Some (py "https://m.media-amazon.com/images/I/71o8Q5XJS5L._AC_SX679_.jpg")
      else None
    else Some image_url
  else None.

Definition fix_tablet (product_lower : str) : option str :=
  if any_of ["ipad"; "tablet"]%string product_lower then
    if has "ipad pro" product_lower
    then Some (py "https://m.media-amazon.com/images/I/81Vctfy%2BgqL._AC_SX679_.jpg")
    else if has "ipad air" product_lower
    then Some (py "https://m.media-amazon.com/images/I/61uA2UVnYWL._AC_SX679_.jpg")
    else None
  else None.

(** A block that returns one address for a list of keywords. *)
Definition fix_category (keywords : list string) (image : string) (product_lower : str)
  : option str :=
  if any_of keywords product_lower then Some (py image) else None.

Definition fix_gaming (product_lower : str) : option str :=
  if any_of ["ps5"; "xbox"; "nintendo"; "gaming"; "console"; "mouse"; "keyboard"]%string
       product_lower then
    if has "ps5" product_lower
    then Some (py "https://m.media-amazon.com/images/I/51DuJxdqUsL._AC_SX679_.jpg")
    else if has "xbox" product_lower
    then Some (py "https://m.media-amazon.com/images/I/61vGzKxqUsL._AC_SX679_.jpg")
    else if has "gaming mouse" product_lower
            || (has "mouse" product_lower && has "gaming" product_lower)
    then Some (py "https://m.media-amazon.com/images/I/61mp7WPxF2L._AC_SX679_.jpg")
    else Some (py "https://via.placeholder.com/400x400/f8f9fa/6c757d?text=🎮+GAMING")
  else None.

Definition fix_kitchen (product_lower : str) : option str :=
  if any_of ["coffee"; "blender"; "mixer"; "toaster"; "microwave"; "oven"]%string
       product_lower then
    if has "coffee" product_lower
    then Some (py "https://m.media-amazon.com/images/I/71jqP5%2BIUsL._AC_SX679_.jpg")
    else if has "blender" product_lower
    then Some (py "https://m.media-amazon.com/images/I/61EqnKsN5HL._AC_SX679_.jpg")
    else Some (py "https://via.placeholder.com/400x400/f8f9fa/6c757d?text=🍳+KITCHEN")
  else None.

Definition fix_display (product_lower : str) : option str :=
  if any_of ["tv"; "television"; "monitor"]%string product_lower then
    if negb (any_of ["phone"; "tablet"; "ipad"; "galaxy tab"; "laptop"; "macbook";
                     "iphone"]%string product_lower)
    then Some (py "https://m.media-amazon.com/images/I/81HNMU7YstL._AC_SX679_.jpg")
    else None
  else None.

Definition fix_furniture (product_lower : str) : option str :=
  if any_of ["chair"; "table"; "bed"; "sofa"; "furniture"; "lamp"]%string product_lower then
    if negb (any_of ["tablet"; "galaxy tab"; "ipad"; "laptop"; "computer"]%string
               product_lower)
    then Some (py "https://via.placeholder.com/400x400/f8f9fa/6c757d?text=🏠+HOME")
    else None
  else None.

Definition fix_watch (image_url product_lower : str) : option str :=
  if any_of ["watch"; "jewelry"; "ring"; "necklace"; "bracelet"]%string product_lower then
    if has "apple watch" product_lower then
      if any_of ["generic-watch"; "placeholder-watch"; "wrong-model"]%string (lower image_url)
      then Some (py "https://m.media-amazon.com/images/I/71u+9F4LY1L._AC_SX679_.jpg")
      else Some image_url
    else if negb (from_retailer image_url)
    then Some (py "https://via.placeholder.com/400x400/f8f9fa/6c757d?text=⌚+ACCESSORY")
    else None
  else None.

(** [OllamaBuyHatkeScraper._fix_known_image_issues] *)
Definition _fix_known_image_issues (image_url product_name : str) : str :=
  if negb (truthy (VStr product_name)) then image_url
  else
    let product_lower := lower product_name in
    first_return
      [fix_category_mismatch image_url product_lower;
       fix_iphone image_url product_lower;
       fix_samsung image_url product_lower;
       fix_laptop image_url product_lower;
       fix_audio image_url product_lower;
       fix_tablet product_lower;
       fix_category ["shirt"; "t-shirt"; "tshirt"; "clothing"; "apparel"]
         "https://via.placeholder.com/400x400/f8f9fa/6c757d?text=👕+CLOTHING+ITEM"
         product_lower;
       fix_category ["shoe"; "sneaker"; "boot"; "footwear"; "nike"; "adidas"; "puma"]
         "https://via.placeholder.com/400x400/f8f9fa/6c757d?text=👟+FOOTWEAR" product_lower;
       fix_category ["book"]
         "https://via.placeholder.com/400x400/f8f9fa/6c757d?text=📚+BOOK" product_lower;
       fix_gaming product_lower;
       fix_kitchen product_lower;
       fix_display product_lower;
       fix_category ["car"; "bike"; "helmet"; "automotive"; "vehicle"]
         "https://via.placeholder.com/400x400/f8f9fa/6c757d?text=🚗+AUTO" product_lower;
       fix_category ["book"; "notebook"; "pen"; "pencil"; "education"]
         "https://via.placeholder.com/400x400/f8f9fa/6c757d?text=📚+EDUCATION" product_lower;
       fix_furniture product_lower;
       fix_category ["cream"; "shampoo"; "soap"; "beauty"; "cosmetic"; "perfume"]
         "https://via.placeholder.com/400x400/f8f9fa/6c757d?text=💄+BEAUTY" product_lower;
       fix_category ["gym"; "fitness"; "sports"; "exercise"; "yoga"; "dumbbell"]
         "https://via.placeholder.com/400x400/f8f9fa/6c757d?text=🏋️+FITNESS" product_lower;
       fix_watch image_url product_lower;
       fix_category ["toy"; "kids"; "baby"; "children"; "game"]
         "https://via.placeholder.com/400x400/f8f9fa/6c757d?text=🧸+KIDS" product_lower;
       fix_category ["food"; "snack"; "grocery"; "organic"]
         "https://via.placeholder.com/400x400/f8f9fa/6c757d?text=🍽️+FOOD" product_lower]%string
      (if _is_image_url_valid image_url then image_url
       else _get_category_fallback_image product_lower).

(** [OllamaBuyHatkeScraper._validate_image_url] *)
Definition broken_patterns : list string :=
  ["/assets/placeholder"; "/images/placeholder"; "/default-image"; "no-image-available";
   "image-not-found"; "placeholder.jpg"; "placeholder.png"; "default.jpg"; "default.png";
   "noimage"; "no_image"; "missing-image"]%string.

Definition trusted_domains : list string :=
  ["amazon.com"; "media-amazon.com"; "ssl-images-amazon.com";
   "images-na.ssl-images-amazon.com"; "images-eu.ssl-images-amazon.com";
   "m.media-amazon.com"; "images-amazon.com"; "flipkart.com"; "rukminim";
   "flixcart.com"]%string.

Definition _validate_image_url (image_url product_name : str) : str :=
  if negb (truthy (VStr image_url)) || str_eqb image_url (py "null")
     || (length image_url <? 10)%nat
  then _get_fallback_image product_name
  else
    let clean_url := strip image_url in
    if any_of broken_patterns (lower clean_url) then _get_fallback_image product_name
    else if negb (startswith (py "http://") clean_url || startswith (py "https://") clean_url)
    then _get_fallback_image product_name
    else if any_of trusted_domains (lower clean_url) then
      let corrected_url := _fix_known_image_issues clean_url product_name in
      if negb (str_eqb corrected_url clean_url) then corrected_url else clean_url
    else if any_of [".jpg"; ".jpeg"; ".png"; ".webp"; ".gif"]%string (lower clean_url)
    then clean_url
    else _get_fallback_image product_name.


End WithUnicode.
End Images.

(** ** The address of the detail page: [_generate_buyhatke_detail_url] *)

Module DetailUrl.

(** [str.isalnum()] of a code point outside ASCII: with the underscore,
    the characters that [\w] matches. *)
Class UnicodeWord := { uni_alnum : N -> bool }.

(** A database without letters and numbers outside ASCII. *)
Definition ascii_words : UnicodeWord := {| uni_alnum := fun _ => false |}.

Section WithUnicode.
Context {U : Unicode} {UW : UnicodeWord}.

(** [\w] *)
Definition is_word (c : N) : bool :=
  if (c <? 128)%N then Extract.is_letter c || is_ascii_digit c || (c =? 95)%N
  else uni_alnum c.

(** [re.sub(r'[^\w\s-]', '', s)] *)
Definition keep_word_space_hyphen (s : str) : str :=
  List.filter (fun c => is_word c || is_space c || (c =? 45)%N) s.

(** [re.sub(r'\s+', '-', s)]: [in_run] tells whether the character before
    was white space, already replaced. *)
Fixpoint hyphenate (in_run : bool) (s : str) : str :=
  match s with
  | [] => []
  | c :: r =>
      if is_space c then (if in_run then hyphenate true r else 45%N :: hyphenate true r)
      else c :: hyphenate false r
  end.

(** [s.split()]: the maximal runs of characters that are not white space;
    [word] is the run being read, its last character first. *)
Fixpoint split_go (word : str) (s : str) : list str :=
  match s with
  | [] => match word with [] => [] | _ => [rev word] end
  | c :: r =>
      if is_space c
      then match word with [] => split_go [] r | _ => rev word :: split_go [] r end
      else split_go (c :: word) r
  end.

Definition split (s : str) : list str := split_go [] s.

(** [OllamaBuyHatkeScraper._generate_buyhatke_detail_url], on strings, for
    which nothing in it raises. *)
Definition _generate_buyhatke_detail_url (product_url product_name platform : str) : pyval :=
  let clean_name := keep_word_space_hyphen (lower product_name) in
  let clean_name := hyphenate false (strip clean_name) in
  let platform_lower := lower platform in
  VStr (py "https://buyhatke.com/" ++ platform_lower ++ py "-" ++ clean_name
          ++ py "-price-in-india").

(** The helpers of [_extract_json_data] as the scraper has them;
    [clock i] is the time read while the record of index [i] is built. *)
Definition scraper_helpers (clock : nat -> str) : Extract.Helpers :=
  {| Extract._validate_image_url := Images._validate_image_url;
     Extract._generate_buyhatke_detail_url := _generate_buyhatke_detail_url;
     Extract.slug_words := fun name => take 8 (split (keep_word_space_hyphen name));
     Extract.now := clock |}.

End WithUnicode.
End DetailUrl.

(** ** Records and counters of [_extract_json_data] *)

Module ExtractDefs.
Import Extract.




End ExtractDefs.

(** ** Amounts as the statistics display them *)


(** * Concrete inputs

    Pages, price lists and collaborators on which the properties below are
    exercised. *)

Module Samples.
Import Extract Orchestrator.

(** Helpers that build plain fields. *)
Definition plain_helpers : Helpers :=
  {| Extract._validate_image_url := fun image_url _ => image_url;
     Extract._generate_buyhatke_detail_url := fun _ _ _ => VNone;
     slug_words := fun name => [name];
     now := fun _ => py "2025-01-01T00:00:00" |}.

(** The helpers of the scraper itself, with a clock that stands still and
    no letters outside ASCII. *)
Definition scraper_helpers : Helpers :=
  @DetailUrl.scraper_helpers PyStr.ascii_table DetailUrl.ascii_words
    (fun _ => py "2025-01-01T00:00:00").

Definition card (name price platform : string) : dict :=
  <["name" := VStr (py name)]>
    (<["price" := VStr (py price)]> (<["platform" := VStr (py platform)]> ∅)).

Definition three_cards : list dict :=
  [card "Dell Inspiron 15 Laptop" "₹54,900" "Amazon";
   card "HP Pavilion 14 Laptop" "₹52,000" "Flipkart";
   card "Lenovo IdeaPad Slim 3" "₹60,000" "Croma"].

(** A page without structured data whose markup holds three product cards;
    a generative extractor that would answer with something else. *)
Definition markup_world : World :=
  {| fetch_page := fun _ => Some (py "<html><a class='text-left w-full'></a></html>");
     Orchestrator._extract_retailer_url_mapping := fun _ => ∅;
     _extract_html_products := fun _ _ _ => three_cards;
     groq_client := true;
     _extract_with_ollama_batched := fun _ _ => [card "Invented" "₹1" "Amazon"];
     _create_xml_file := fun _ _ _ => Ok (py "outputs/ollama_laptop.xml");
     timestamp := py "2025-01-01T00:00:00" |}.

(** A page on which no strategy finds a record. *)
Definition empty_world : World :=
  {| fetch_page := fun _ => Some (py "<html><body>No results</body></html>");
     Orchestrator._extract_retailer_url_mapping := fun _ => ∅;
     _extract_html_products := fun _ _ _ => [];
     groq_client := true;
     _extract_with_ollama_batched := fun _ _ => [];
     _create_xml_file := fun _ _ _ => Ok (py "outputs/ollama_xyz.xml");
     timestamp := py "2025-01-01T00:00:00" |}.

(** A page with two complete products and one name without a link. *)
Definition assignment (var field value : string) : str :=
  py var ++ py "." ++ py field ++ py "=" ++ [quote] ++ py value ++ [quote] ++ py ";".

Definition two_products_page : str :=
  assignment "a" "prod" "Dell Inspiron 15 Laptop"
    ++ assignment "a" "link" "http://www.amazon.in/dp/B0C1" ++ py "a.price=54900;"
    ++ assignment "b" "prod" "HP Pavilion 14 Laptop"
    ++ assignment "b" "siteImage" "flipkart.png"
    ++ assignment "b" "link" "/hp-pavilion-14" ++ py "b.price=null;"
    ++ assignment "c" "prod" "Lenovo IdeaPad Slim 3 Laptop".

(** Three offers for one product. *)
Definition offer (platform price : string) (price_numeric : pyval) : dict :=
  <["platform" := VStr (py platform)]>
    (<["price" := VStr (py price)]> (<["price_numeric" := price_numeric]> ∅)).

Definition offer_a : dict := offer "Amazon" "₹54,900" (VFloat (round_Z 54900)).
Definition offer_b : dict := offer "Flipkart" "₹52,000" (VFloat (round_Z 52000)).
Definition offer_c : dict := offer "Croma" "₹60,000" (VInt 60000).

(** A history point. *)
Definition point (price platform : string) : dict :=
  <["price" := VStr (py price)]>
    (<["platform" := VStr (py platform)]>
       (<["timestamp" := VStr (py "2025-01-01T00:00:00")]> ∅)).

(** A search page with 100 Amazon and 5 Flipkart listings. *)
Definition listing (var : str) (name link : string) : str :=
  var ++ py ".prod=" ++ [quote] ++ py name ++ [quote] ++ py ";"
    ++ var ++ py ".link=" ++ [quote] ++ py link ++ [quote] ++ py ";"
    ++ var ++ py ".price=54900;".

Definition listings (prefix : string) (count : nat) (name link : string) : str :=
  flat_map (fun i => listing (py prefix ++ digits (N.of_nat i)) name link) (seq 0 count).

Definition catalogue_page (amazon_name flipkart_name : string) : str :=
  listings "a" 100 amazon_name "https://www.amazon.in/dp/B0TV"
    ++ listings "f" 5 flipkart_name "https://www.flipkart.com/p/itm".

End Samples.

(** * Properties *)

Section OrchestratorProperties.
Import Extract Orchestrator.
Context {U : Unicode} {H : Helpers} {W : World}.

Lemma nonempty_true {A} (l : list A) : l <> [] -> nonempty l = true.
Proof. by destruct l. Qed.

Lemma extract_with_ollama_markup html_content query t :
  _extract_json_data html_content query = [] ->
  _extract_html_products html_content query
    (Orchestrator._extract_retailer_url_mapping html_content) <> [] ->
  _extract_with_ollama html_content query t
  = (Ok (_extract_html_products html_content query
           (Orchestrator._extract_retailer_url_mapping html_content)), t).
Proof.
  intros Hjson Hhtml. unfold _extract_with_ollama, io_try.
  rewrite Hjson. cbn [nonempty]. by rewrite (nonempty_true _ Hhtml).
Qed.

Lemma extract_with_ollama_empty html_content query t :
  all_strategies_empty html_content query ->
  fst (_extract_with_ollama html_content query t) = Ok [].
Proof.
  intros (Hjson & Hhtml & Hgroq). unfold _extract_with_ollama, io_try.
  rewrite Hjson, Hhtml. cbn [nonempty].
  destruct groq_client; [|done].
  rewrite (Hgroq eq_refl). done.
Qed.

Lemma search_products_fetched query html_content t :
  fetch_page query = Some html_content ->
  html_content <> [] ->
  search_products query t
  = match _extract_with_ollama html_content query (t ++ [EvFetch query]) with
    | (Ok extracted, t') =>
        let products := if negb (nonempty extracted)
                        then _create_fallback_products query else extracted in
        match _create_xml_file products query html_content with
        | Ok _ => (Ok (Some products), t' ++ [EvWriteXml products])
        | Raise e => (Raise e, t' ++ [EvWriteXml products])
        end
    | (Raise e, t') => (Raise e, t')
    end.
Proof.
  intros Hfetch Hne. unfold search_products, io_bind, emit, lift, io_ret.
  rewrite Hfetch. destruct html_content as [|c r]; [done|]. cbn [truthy negb].
  destruct (_extract_with_ollama _ _ _) as [[extracted|e] t']; [|done].
  by destruct (_create_xml_file _ _ _).
Qed.

(** C3 (fallback chaining).  When the structured-data extractor finds no
    record on a page and the markup extractor finds some, [_extract_with_ollama]
    returns exactly the markup extractor's records and logs no event: the
    generative extractor is not called.  [search_products] then returns the
    same records, having only fetched the page and written the report. *)
Theorem C3_markup_records_are_the_result html_content query t :
  _extract_json_data html_content query = [] ->
  _extract_html_products html_content query
    (Orchestrator._extract_retailer_url_mapping html_content) <> [] ->
  let html_products :=
    _extract_html_products html_content query
      (Orchestrator._extract_retailer_url_mapping html_content) in
  _extract_with_ollama html_content query t = (Ok html_products, t)
  /\ (fetch_page query = Some html_content ->
      html_content <> [] ->
      raises (_create_xml_file html_products query html_content) = false ->
      search_products query t
      = (Ok (Some html_products), t ++ [EvFetch query; EvWriteXml html_products])
      /\ groq_invoked (snd (search_products query t)) = groq_invoked t).
Proof.
  intros Hjson Hhtml html_products. subst html_products.
  pose proof (extract_with_ollama_markup html_content query) as Hx.
  split; [by apply Hx|].
  intros Hfetch Hne Hxml.
  match goal with |- ?g /\ _ => assert g as Hs end.
  { rewrite (search_products_fetched _ _ _ Hfetch Hne), (Hx _ Hjson Hhtml).
    rewrite (nonempty_true _ Hhtml). cbn [negb].
    destruct (_create_xml_file _ _ _); [|done].
    by rewrite <- app_assoc. }
  split; [done|]. rewrite Hs. cbn [snd]. unfold groq_invoked.
  rewrite existsb_app. cbn. by rewrite orb_false_r.
Qed.

(** C1, as the code has it.  When the page of a query is fetched and every
    extraction strategy finds no record on it, [search_products] returns the
    one placeholder record of [_create_fallback_products] (as long as the
    report can be written), whoever the caller is; it returns [None] when the
    page cannot be fetched. *)
Theorem C1_total_failure_gives_placeholder query t :
  (fetch_page query = None -> fst (search_products query t) = Ok None)
  /\ (forall html_content,
        fetch_page query = Some html_content ->
        html_content <> [] ->
        all_strategies_empty html_content query ->
        raises (_create_xml_file (_create_fallback_products query) query html_content)
        = false ->
        fst (search_products query t) = Ok (Some (_create_fallback_products query))
        /\ length (_create_fallback_products query) = 1%nat
        /\ Forall (fun p => p !! "extraction_method" = Some (VStr (py "fallback"))
                            /\ p !! "name"
                               = Some (VStr (query ++ py " - AI Extraction Failed (Sample 1)")))
             (_create_fallback_products query)).
Proof.
  split.
  - intros Hfetch. unfold search_products, io_bind, emit, io_ret. by rewrite Hfetch.
  - intros html_content Hfetch Hne Hempty Hxml.
    split; [|split; [done|]].
    + rewrite (search_products_fetched _ _ _ Hfetch Hne).
      pose proof (extract_with_ollama_empty html_content query (t ++ [EvFetch query]) Hempty)
        as He.
      destruct (_extract_with_ollama _ _ _) as [[extracted|e] t']; [|done].
      cbn [fst] in He. injection He as ->. cbn [nonempty negb].
      by destruct (_create_xml_file _ _ _).
    + by repeat constructor.
Qed.

End OrchestratorProperties.

(** Witness of C3: the page of [markup_world] has no structured data and
    three product cards. *)
Lemma C3_witness :
  let html_content := py "<html><a class='text-left w-full'></a></html>" in
  @Orchestrator._extract_with_ollama PyStr.ascii_table Samples.plain_helpers
    Samples.markup_world html_content (py "laptop") []
  = (Ok Samples.three_cards, [])
  /\ @Orchestrator.search_products PyStr.ascii_table Samples.plain_helpers
       Samples.markup_world (py "laptop") []
     = (Ok (Some Samples.three_cards),
        [Orchestrator.EvFetch (py "laptop"); Orchestrator.EvWriteXml Samples.three_cards]).
Proof.
  intros html_content.
  destruct (@C3_markup_records_are_the_result PyStr.ascii_table Samples.plain_helpers
              Samples.markup_world html_content (py "laptop") []) as [Hx Hs].
  - vm_compute. reflexivity.
  - discriminate.
  - split; [exact Hx|]. apply Hs; [reflexivity|discriminate|reflexivity].
Defined.

(** Counterexample to C1 as stated: no strategy finds a record on the page of
    [empty_world], and a plain search still returns a made-up Amazon offer at
    ₹25,999 instead of an empty or failure result. *)
Lemma C1_counterexample :
  let html_content := py "<html><body>No results</body></html>" in
  let result := fst (@Orchestrator.search_products PyStr.ascii_table
                       Samples.plain_helpers Samples.empty_world (py "xyz") []) in
  @Orchestrator.fetch_page Samples.empty_world (py "xyz") = Some html_content
  /\ @Orchestrator.all_strategies_empty PyStr.ascii_table Samples.plain_helpers
       Samples.empty_world html_content (py "xyz")
  /\ result <> Ok None
  /\ result <> Ok (Some [])
  /\ exists p, result = Ok (Some [p])
             /\ p !! "platform" = Some (VStr (py "Amazon"))
             /\ p !! "price" = Some (VStr (py "₹25,999")).
Proof.
  intros html_content result.
  assert (result = Ok (Some (@Orchestrator._create_fallback_products Samples.empty_world
                               (py "xyz")))) as Hr by (vm_compute; reflexivity).
  split; [reflexivity|]. split.
  { split; [vm_compute; reflexivity|]. split; [reflexivity|]. intros _. reflexivity. }
  rewrite Hr. split; [discriminate|]. split; [discriminate|].
  eexists. split; [reflexivity|]. split; vm_compute; reflexivity.
Qed.

(** Witness of C1: the same page, with the report written. *)
Lemma C1_witness :
  fst (@Orchestrator.search_products PyStr.ascii_table Samples.plain_helpers
         Samples.empty_world (py "xyz") [])
  = Ok (Some (@Orchestrator._create_fallback_products Samples.empty_world (py "xyz"))).
Proof.
  apply (proj2 (@C1_total_failure_gives_placeholder PyStr.ascii_table
                  Samples.plain_helpers Samples.empty_world (py "xyz") [])
           (py "<html><body>No results</body></html>")).
  - reflexivity.
  - discriminate.
  - split; [vm_compute; reflexivity|]. split; [reflexivity|]. intros _. reflexivity.
  - reflexivity.
Defined.

Section LoopLemmas.
Context {S A : Type} (f : S -> A -> result S).

Lemma for_each_app (l1 l2 : list A) (s : S) :
  for_each f (l1 ++ l2) s = (s' <- for_each f l1 s;; for_each f l2 s').
Proof.
  revert s. induction l1 as [|x l1 IH]; intros s; cbn; [done|].
  destruct (f s x); [apply IH|done].
Qed.

End LoopLemmas.

Section MergeProperties.
Import Merge.
Context {U : Unicode}.

Lemma platform_key_str (price : dict) :
  platform_is_str price -> exists k, platform_key price = Ok k.
Proof.
  unfold platform_is_str, platform_key, get.
  destruct (price !! "platform") as [[]|]; try done; eauto.
Qed.

(** The second loop over well-formed entries: it appends a list [new] that
    the same loop, started from the same set of platforms, appends again. *)
Lemma additional_loop (additional : list dict) :
  Forall platform_is_str additional ->
  forall all_prices seen,
  exists new seen',
    for_each add_additional additional (all_prices, seen) = Ok (all_prices ++ new, seen')
    /\ forall acc, for_each add_additional new (acc, seen) = Ok (acc ++ new, seen').
Proof.
  induction 1 as [|b additional Hb _ IH]; intros all_prices seen.
  - exists [], seen. split; [by rewrite app_nil_r|]. intros acc. by rewrite app_nil_r.
  - destruct (platform_key_str b Hb) as [k Hk].
    cbn [for_each]. unfold add_additional at 1. rewrite Hk. cbn [fst snd].
    destruct (bool_decide (k ∉ seen) && truthy (VStr k)) eqn:Hadd.
    + destruct (IH (all_prices ++ [b]) (seen ∪ {[k]})) as (new & seen' & Hrun & Hagain).
      exists (b :: new), seen'. split.
      * rewrite Hrun. by rewrite <- app_assoc.
      * intros acc. cbn [for_each]. unfold add_additional at 1.
        rewrite Hk. cbn [fst snd]. rewrite Hadd, Hagain. by rewrite <- app_assoc.
    + destruct (IH all_prices seen) as (new & seen' & Hrun & Hagain).
      by exists new, seen'.
Qed.

(** After the first loop every entry kept has its platform in the set. *)
Lemma primary_loop_seen (primary : list dict) :
  forall all_prices seen kept seen',
  for_each add_primary primary (all_prices, seen) = Ok (kept, seen') ->
  Forall (fun d => exists k, platform_key d = Ok k /\ k ∈ seen) all_prices ->
  Forall (fun d => exists k, platform_key d = Ok k /\ k ∈ seen') kept.
Proof.
  induction primary as [|a primary IH]; intros all_prices seen kept seen' Hrun Hinv.
  - cbn in Hrun. by injection Hrun as <- <-.
  - cbn [for_each] in Hrun. unfold add_primary at 1 in Hrun.
    destruct (platform_key a) as [k|] eqn:Hk; [|done]. cbn [fst snd] in Hrun.
    case_bool_decide as Hin.
    + apply (IH _ _ _ _ Hrun). apply Forall_app. split.
      * eapply Forall_impl; [exact Hinv|]. intros d (k' & Hk' & Hin').
        exists k'. split; [done|set_solver].
      * constructor; [|constructor]. exists k. split; [done|set_solver].
    + by apply (IH _ _ _ _ Hrun).
Qed.

(** The second loop passes over entries whose platform is already seen. *)
Lemma additional_loop_skip (l : list dict) (all_prices : list dict) (seen : gset str) :
  Forall (fun d => exists k, platform_key d = Ok k /\ k ∈ seen) l ->
  for_each add_additional l (all_prices, seen) = Ok (all_prices, seen).
Proof.
  induction 1 as [|d l (k & Hk & Hin) _ IH]; [done|].
  cbn [for_each]. unfold add_additional at 1. rewrite Hk. cbn [fst snd].
  rewrite bool_decide_eq_false_2 by (intros Hn; by apply Hn). done.
Qed.

Lemma platform_key_text (price : dict) :
  platform_is_str price -> platform_key price = Ok (platform_text price).
Proof.
  intros Hstr. destruct (platform_key_str price Hstr) as [k Hk].
  unfold platform_text. by rewrite Hk.
Qed.

Lemma appeared_spec (earlier : list dict) (price : dict) :
  appeared earlier price = true
  <-> exists other, other ∈ earlier /\ platform_text other = platform_text price.
Proof.
  unfold appeared. rewrite existsb_exists. split.
  - intros (other & Hin & Heq). exists other. split; [by apply list_elem_of_In|].
    by apply bool_decide_eq_true in Heq.
  - intros (other & Hin & Heq). exists other. split; [by apply list_elem_of_In|].
    by apply bool_decide_eq_true.
Qed.

(** The first loop keeps the entries that the specification keeps, and
    has seen the platforms of all the entries it has passed. *)
Lemma primary_loop_words (l : list dict) :
  Forall platform_is_str l ->
  forall all_prices seen earlier,
  (forall k, k ∈ seen <-> exists other, other ∈ earlier /\ platform_text other = k) ->
  exists seen',
    for_each add_primary l (all_prices, seen)
    = Ok (all_prices ++ keep_new false earlier l, seen')
    /\ (forall k, k ∈ seen' <-> exists other, other ∈ earlier ++ l /\ platform_text other = k).
Proof.
  induction 1 as [|x l Hx _ IH]; intros all_prices seen earlier Hseen.
  - exists seen. rewrite !app_nil_r. by split.
  - cbn [for_each keep_new]. unfold add_primary at 1.
    rewrite (platform_key_text x Hx). cbn [fst snd]. rewrite orb_false_r.
    assert (forall k, k ∈ seen ∪ {[platform_text x]}
              <-> exists other, other ∈ earlier ++ [x] /\ platform_text other = k) as Hadd.
    { intros k. rewrite elem_of_union, elem_of_singleton, Hseen. split.
      - intros [(other & Hin & Heq)| ->].
        + exists other. split; [|done]. apply elem_of_app. by left.
        + exists x. split; [|done]. apply elem_of_app. right. by left.
      - intros (other & [Hin|Hin]%elem_of_app & Heq).
        + left. by exists other.
        + right. apply list_elem_of_singleton in Hin. by subst other. }
    destruct (appeared earlier x) eqn:Happ.
    + apply appeared_spec, Hseen in Happ.
      rewrite bool_decide_eq_false_2 by (intros Hn; by apply Hn).
      destruct (IH all_prices seen (earlier ++ [x])) as (seen' & Hrun & Hseen').
      { intros k. rewrite <- Hadd. rewrite elem_of_union, elem_of_singleton.
        split; [by left|]. by intros [?| ->]. }
      exists seen'. rewrite <- app_assoc in Hseen'. by split.
    + assert (platform_text x ∉ seen) as Hnew.
      { intros Hin%Hseen%appeared_spec. by rewrite Hin in Happ. }
      rewrite bool_decide_eq_true_2 by done.
      destruct (IH (all_prices ++ [x]) (seen ∪ {[platform_text x]}) (earlier ++ [x]) Hadd)
        as (seen' & Hrun & Hseen').
      exists seen'. rewrite <- !app_assoc in *. by split.
Qed.

(** The second loop appends the entries that the specification appends. *)
Lemma additional_loop_words (l : list dict) :
  Forall platform_is_str l ->
  forall all_prices seen earlier,
  (forall k, k <> [] ->
     k ∈ seen <-> exists other, other ∈ earlier /\ platform_text other = k) ->
  exists seen',
    for_each add_additional l (all_prices, seen)
    = Ok (all_prices ++ keep_new true earlier l, seen').
Proof.
  induction 1 as [|x l Hx _ IH]; intros all_prices seen earlier Hseen.
  - exists seen. by rewrite !app_nil_r.
  - cbn [for_each keep_new]. unfold add_additional at 1.
    rewrite (platform_key_text x Hx). cbn [fst snd andb].
    destruct (platform_text x) as [|c k] eqn:Hk.
    + cbn [truthy negb]. rewrite andb_false_r, orb_true_r. cbn [app].
      apply IH. intros k Hne. rewrite (Hseen k Hne). split.
      * intros (other & Hin & Heq). exists other. split; [|done]. apply elem_of_app. by left.
      * intros (other & [Hin|Hin]%elem_of_app & Heq); [by exists other|].
        apply list_elem_of_singleton in Hin. subst other. congruence.
    + cbn [truthy negb]. rewrite andb_true_r, orb_false_r. rewrite <- Hk in *.
      assert (platform_text x <> []) as Hne by (by rewrite Hk).
      assert (forall k', k' <> [] ->
                k' ∈ seen ∪ {[platform_text x]}
                <-> exists other, other ∈ earlier ++ [x] /\ platform_text other = k') as Hadd.
      { intros k' Hne'. rewrite elem_of_union, elem_of_singleton, (Hseen k' Hne'). split.
        - intros [(other & Hin & Heq)| ->].
          + exists other. split; [|done]. apply elem_of_app. by left.
          + exists x. split; [|done]. apply elem_of_app. right. by left.
        - intros (other & [Hin|Hin]%elem_of_app & Heq).
          + left. by exists other.
          + right. apply list_elem_of_singleton in Hin. by subst other. }
      destruct (appeared earlier x) eqn:Happ.
      * apply appeared_spec, (Hseen _ Hne) in Happ.
        rewrite bool_decide_eq_false_2 by (intros Hn; by apply Hn). cbn [app].
        apply IH. intros k' Hne'. rewrite <- (Hadd k' Hne').
        rewrite elem_of_union, elem_of_singleton.
        split; [by left|]. by intros [?| ->].
      * assert (platform_text x ∉ seen) as Hnew.
        { intros Hin. apply (Hseen _ Hne), appeared_spec in Hin. by rewrite Hin in Happ. }
        rewrite bool_decide_eq_true_2 by done.
        destruct (IH (all_prices ++ [x]) (seen ∪ {[platform_text x]}) (earlier ++ [x]) Hadd)
          as (seen' & Hrun). exists seen'. rewrite <- !app_assoc in *. done.
Qed.

(** The merge of entries whose platforms are strings is the merge of the
    specification. *)
Lemma merge_is_merge_in_words (A B : list dict) :
  Forall platform_is_str A -> Forall platform_is_str B ->
  _merge_price_data A B = merge_in_words A B.
Proof.
  intros HA HB. unfold _merge_price_data, merge_in_words.
  destruct (primary_loop_words A HA [] ∅ []) as (seen & Hrun & Hseen).
  { intros k. split; [set_solver|]. intros (other & Hin & _). by apply elem_of_nil in Hin. }
  cbn [app] in *. rewrite Hrun.
  destruct (additional_loop_words B HB (keep_new false [] A) seen A) as (seen' & Hrun').
  { intros k _. apply Hseen. }
  by rewrite Hrun'.
Qed.

(** C8 (idempotence of merge), as the code has it.  For all lists of price
    entries [A] and [B] in which the platform of every entry of [B] is a
    string or missing, [merge(A, merge(A, B)) = merge(A, B)], where [merge]
    is [_merge_price_data]; and when the platforms of the entries of [A] are
    strings or missing too, [merge(A, B)] is the merge of the specification:
    the entries of [A] that are the first of their platform, compared
    without regard to case, followed by the entries of [B] whose platform is
    not empty and has not appeared before, in [A] or in [B]. *)
Theorem C8_merge_idempotent (A B : list dict) :
  Forall platform_is_str B ->
  _merge_price_data A (_merge_price_data A B) = _merge_price_data A B
  /\ (Forall platform_is_str A -> _merge_price_data A B = merge_in_words A B).
Proof.
  intros HB. split; [|intros HA; by apply merge_is_merge_in_words].
  unfold _merge_price_data.
  destruct (for_each add_primary A ([], ∅)) as [[kept seen]|e] eqn:Hprimary; [|done].
  destruct (additional_loop B HB kept seen) as (new & seen' & Hrun & Hagain).
  rewrite Hrun. cbn [fst].
  rewrite for_each_app, additional_loop_skip.
  - by rewrite Hagain.
  - by apply (primary_loop_seen A [] ∅ kept seen Hprimary).
Qed.

End MergeProperties.

(** Witness of C8: a primary list with a repeated platform and an entry
    without one, a secondary list with a new, a known and an empty platform. *)
Lemma C8_witness :
  let A := [Samples.card "Phone" "₹54,900" "Amazon";
            Samples.card "Phone" "₹55,100" "AMAZON";
            Samples.card "Phone" "₹56,000" ""] in
  let B := [Samples.card "Phone" "₹52,000" "Flipkart";
            Samples.card "Phone" "₹53,000" "amazon";
            Samples.card "Phone" "₹51,000" ""] in
  Forall Merge.platform_is_str B
  /\ @Merge._merge_price_data PyStr.ascii_table A (@Merge._merge_price_data PyStr.ascii_table A B)
     = @Merge._merge_price_data PyStr.ascii_table A B
  /\ @Merge._merge_price_data PyStr.ascii_table A B
     = [Samples.card "Phone" "₹54,900" "Amazon"; Samples.card "Phone" "₹56,000" "";
        Samples.card "Phone" "₹52,000" "Flipkart"].
Proof.
  intros A B.
  assert (Forall Merge.platform_is_str B) as HB by (repeat constructor).
  assert (Forall Merge.platform_is_str A) as HA by (repeat constructor).
  destruct (@C8_merge_idempotent PyStr.ascii_table A B HB) as [Hsame Hwords].
  split; [exact HB|]. split; [exact Hsame|].
  rewrite (Hwords HA). vm_compute. reflexivity.
Defined.

(** Counterexample to C8 as stated: two primary entries of one platform and
    a secondary entry whose platform is [None].  The call of [lower] on
    [None] raises, the handler returns the primary list as it is, with both
    entries; merging the primary list with that result keeps one entry. *)
Lemma C8_counterexample :
  let A := [Samples.card "Phone" "₹54,900" "Amazon"; Samples.card "Phone" "₹1" "Amazon"] in
  let B := [<["platform" := VNone]> (∅ : dict)] in
  @Merge._merge_price_data PyStr.ascii_table A B = A
  /\ @Merge._merge_price_data PyStr.ascii_table A (@Merge._merge_price_data PyStr.ascii_table A B)
     = [Samples.card "Phone" "₹54,900" "Amazon"]
  /\ @Merge._merge_price_data PyStr.ascii_table A (@Merge._merge_price_data PyStr.ascii_table A B)
     <> @Merge._merge_price_data PyStr.ascii_table A B.
Proof.
  intros A B. split; [vm_compute; reflexivity|]. split; [vm_compute; reflexivity|].
  vm_compute. discriminate.
Qed.

(** C6 (relevance filtering).  For the query "laptop" the filter rejects
    "Dell Laptop Cooling Pad" and accepts "Dell Inspiron 15 Laptop". *)
Theorem C6_laptop_relevance (U : Unicode) :
  Relevance._is_relevant_product (py "Dell Laptop Cooling Pad") (py "laptop") = false
  /\ Relevance._is_relevant_product (py "Dell Inspiron 15 Laptop") (py "laptop") = true.
Proof. split; vm_compute; reflexivity. Qed.

Section ExtractProperties.
Import Extract.
Context {U : Unicode} {H : Helpers}.



Lemma lstrip_by_elem (p : N -> bool) (c : N) (s : str) : c ∈ lstrip_by p s -> c ∈ s.
Proof.
  induction s as [|x s IH]; cbn; [done|].
  destruct (p x); [|done]. intros Hc. right. by apply IH.
Qed.

Lemma strip_by_elem (p : N -> bool) (c : N) (s : str) : c ∈ strip_by p s -> c ∈ s.
Proof.
  unfold strip_by. rewrite list_elem_of_In, <- in_rev, <- list_elem_of_In.
  intros Hc. apply lstrip_by_elem in Hc.
  rewrite list_elem_of_In, <- in_rev, <- list_elem_of_In in Hc.
  by apply (lstrip_by_elem p).
Qed.

Lemma isdigit_elem (s : str) (c : N) : isdigit s = true -> c ∈ s -> is_digit_char c = true.
Proof.
  unfold isdigit. destruct s as [|x s]; [done|]. intros Hall Hc.
  rewrite forallb_forall in Hall. apply Hall. by apply list_elem_of_In.
Qed.

Lemma take_sign_plain (c : N) (r : str) : c <> 45%N -> (take_sign (c :: r)).1 = false.
Proof. intros Hc. unfold take_sign. repeat case_match; simplify_eq; done. Qed.

(** An all-digit string converts to a number that is not negative. *)
Lemma price_of_field_nonneg (s : str) (n : Z) : Price.price_of_field s = Ok n -> 0 <= n.
Proof.
  unfold Price.price_of_field. destruct (isdigit s) eqn:Hd; [|intros [= <-]; lia].
  unfold py_int.
  destruct (strip_by is_number_space s) as [|c r] eqn:Hs; [done|].
  assert (is_digit_char c = true) as Hc.
  { apply (isdigit_elem s c Hd), (strip_by_elem is_number_space). rewrite Hs. left. }
  assert (c <> 45%N) as Hminus by (intros ->; vm_compute in Hc; done).
  pose proof (take_sign_plain c r Hminus) as Hsign.
  destruct (take_sign (c :: r)) as [neg r']. cbn in Hsign. subst neg.
  repeat case_match; intros [= <-]; lia.
Qed.

Lemma product_matches_constants (html_content : str) (m : match_data) :
  m ∈ product_matches html_content ->
  popularity_str m = py "0" /\ is_active_str m = py "1" /\ product_id m = py "0".
Proof.
  unfold product_matches. rewrite list_elem_of_In, in_flat_map.
  intros ([var name] & _ & Hm). destruct (_ !! var); [|done].
  destruct Hm as [<-|[]]. done.
Qed.

(** Every record of the result was built from one of the matches. *)
Lemma extract_loop_origin (query : str) (ms : list match_data) :
  forall i st product,
  product ∈ extract_loop query i ms st ->
  product ∈ products st
  \/ exists m j, m ∈ ms /\ build_product j m (platform_of m) = Ok product.
Proof.
  induction ms as [|m ms IH]; intros i st product; cbn [extract_loop]; [by left|].
  assert (forall st', product ∈ extract_loop query (S i) ms st' ->
            products st' = products st
            \/ (exists p, build_product i m (platform_of m) = Ok p
                         /\ products st' = products st ++ [p]) ->
            product ∈ products st
            \/ exists m' j, m' ∈ m :: ms /\ build_product j m' (platform_of m') = Ok product)
    as Hnext.
  { intros st' Hin Hst'. destruct (IH _ _ _ Hin) as [Hold|(m' & j & Hm' & Hb)].
    - destruct Hst' as [Hst'|(p & Hp & Hst')]; rewrite Hst' in Hold; [by left|]. apply elem_of_app in Hold as [Hold|Hnew]; [by left|].
      apply list_elem_of_singleton in Hnew as ->. right. exists m, i. split; [left|done].
    - right. exists m', j. split; [by right|done]. }
  unfold step. destruct (max_per_platform <=? _)%nat; [intros Hin; apply (Hnext _ Hin); by left|].
  assert (products (bump (platform_of m) st) = products st) as Hbump
    by (by destruct (platform_of m)).
  destruct (build_product i m (platform_of m)) as [p|e] eqn:Hb;
    [|intros Hin; apply (Hnext _ Hin); by left].
  destruct (admitted _ _); [|intros Hin; apply (Hnext _ Hin); by left].
  destruct (max_products <=? _)%nat.
  - cbn [append_product products]. rewrite Hbump. intros Hin.
    apply elem_of_app in Hin as [Hold|Hnew]; [by left|].
    apply list_elem_of_singleton in Hnew as ->. right. exists m, i. split; [left|done].
  - intros Hin. apply (Hnext _ Hin). right. exists p. split; [done|].
    cbn [append_product products]. by rewrite Hbump.
Qed.

Lemma record_fields (v1 v2 v3 v4 v5 v6 v7 v8 v9 v10 v11 v12 v13 v14 v15 : pyval) :
  let product : dict :=
    <["id" := v1]> (<["name" := v2]> (<["price" := v3]> (<["platform" := v4]>
    (<["url" := v5]> (<["buyhatke_detail_url" := v6]> (<["image_url" := v7]>
    (<["original_image_url" := v8]> (<["uses_placeholder" := v9]>
    (<["extracted_at" := v10]> (<["extraction_method" := v11]>
    (<["popularity" := v12]> (<["is_active" := v13]>
    (<["availability_status" := v14]> (<["availability_class" := v15]> ∅)))))))))))))) in
  product !! "name" = Some v2 /\ product !! "price" = Some v3
  /\ product !! "platform" = Some v4 /\ product !! "availability_status" = Some v14.
Proof. repeat split; vm_compute; reflexivity. Qed.

(** What [build_product] puts into the record of a match that carries the
    constants of [product_matches]. *)
Lemma build_product_fields (i : nat) (m : match_data) (p : platform) (product : dict) :
  popularity_str m = py "0" -> is_active_str m = py "1" ->
  build_product i m p = Ok product ->
  exists price,
    Price.price_of_field (price_str m) = Ok price
    /\ product !! "name" = Some (VStr (strip (prod_name m)))
    /\ product !! "price" = Some (VStr (Price.formatted_price price))
    /\ product !! "platform" = Some (VStr (platform_name p))
    /\ product !! "availability_status"
       = Some (VStr (py (if price =? 0 then "Price Not Available" else "Limited Stock"))).
Proof.
  intros Hpop Hact. unfold build_product. rewrite Hpop, Hact.
  destruct (Price.price_of_field (price_str m)) as [price|] eqn:Hprice; [|done].
  replace (int_or (py "0") 0) with (Ok 0 : result Z) by (vm_compute; reflexivity).
  replace (int_or (py "1") 1) with (Ok 1 : result Z) by (vm_compute; reflexivity).
  unfold availability. cbn [Z.eqb]. replace (0 <? 10) with true by done.
  intros Hb. exists price. split; [done|].
  destruct (price =? 0); injection Hb as <-;
    match goal with |- context [<["id" := ?v1]> (<["name" := ?v2]> (<["price" := ?v3]>
      (<["platform" := ?v4]> (<["url" := ?v5]> (<["buyhatke_detail_url" := ?v6]>
      (<["image_url" := ?v7]> (<["original_image_url" := ?v8]> (<["uses_placeholder" := ?v9]>
      (<["extracted_at" := ?v10]> (<["extraction_method" := ?v11]> (<["popularity" := ?v12]>
      (<["is_active" := ?v13]> (<["availability_status" := ?v14]>
      (<["availability_class" := ?v15]> ∅))))))))))))))] =>
      apply (record_fields v1 v2 v3 v4 v5 v6 v7 v8 v9 v10 v11 v12 v13 v14 v15)
    end.
Qed.

(** C10 (availability of structured-data records).  Every record that
    [_extract_json_data] returns comes from a match whose price field reads
    as an integer [price >= 0] (0 when the field is not all digits); its
    status is "Limited Stock" when [price] is positive and "Price Not
    Available" when it is 0, and therefore never "Available" nor "Out of
    Stock": the popularity and the active flag are the constants "0" and
    "1". *)
Theorem C10_availability_status (html_content query : str) (product : dict) :
  product ∈ _extract_json_data html_content query ->
  exists m price,
    m ∈ product_matches html_content
    /\ popularity_str m = py "0" /\ is_active_str m = py "1"
    /\ Price.price_of_field (price_str m) = Ok price
    /\ product !! "price" = Some (VStr (Price.formatted_price price))
    /\ ((0 < price
         /\ product !! "availability_status" = Some (VStr (py "Limited Stock")))
        \/ (price = 0
            /\ product !! "availability_status" = Some (VStr (py "Price Not Available"))))
    /\ product !! "availability_status" <> Some (VStr (py "Available"))
    /\ product !! "availability_status" <> Some (VStr (py "Out of Stock")).
Proof.
  intros Hin. unfold _extract_json_data in Hin.
  apply extract_loop_origin in Hin as [Hin|(m & j & Hm & Hb)];
    [by apply elem_of_nil in Hin|].
  destruct (product_matches_constants _ _ Hm) as (Hpop & Hact & _).
  destruct (build_product_fields _ _ _ _ Hpop Hact Hb)
    as (price & Hprice & _ & Hp & _ & Hstatus).
  pose proof (price_of_field_nonneg _ _ Hprice) as Hnn.
  exists m, price. repeat (split; [done|]).
  destruct (price =? 0) eqn:Hz.
  - apply Z.eqb_eq in Hz. rewrite Hstatus. split; [by right|]. split; discriminate.
  - apply Z.eqb_neq in Hz. rewrite Hstatus. split; [left; split; [lia|done]|].
    split; discriminate.
Qed.

End ExtractProperties.

(** Witness of C10: the first record of a page with two complete products. *)
Lemma C10_witness :
  let products := @Extract._extract_json_data PyStr.ascii_table Samples.plain_helpers
                    Samples.two_products_page (py "laptop") in
  let product := default ∅ (products !! 0%nat) in
  product ∈ products
  /\ product !! "availability_status" = Some (VStr (py "Limited Stock"))
  /\ product !! "availability_status" <> Some (VStr (py "Available")).
Proof.
  intros products product.
  assert (product ∈ products) as Hin.
  { apply list_elem_of_lookup. exists 0%nat. vm_compute. reflexivity. }
  split; [exact Hin|]. split; [vm_compute; reflexivity|].
  destruct (@C10_availability_status PyStr.ascii_table Samples.plain_helpers
              Samples.two_products_page (py "laptop") product Hin)
    as (m & price & _ & _ & _ & _ & _ & _ & Hna & _).
  exact Hna.
Defined.

Section ComparisonProperties.
Import Comparison.

Ltac closed2 f :=
  repeat match goal with
         | |- context [f ?a ?b] =>
             let r := eval vm_compute in (f a b) in
             replace (f a b) with r by (vm_compute; reflexivity)
         end.

Ltac closed1 f :=
  repeat match goal with
         | |- context [f ?a] =>
             let r := eval vm_compute in (f a) in
             replace (f a) with r by (vm_compute; reflexivity)
         end.

Ltac read_prices H1 H2 H3 :=
  unfold label_page, label_search, positive_price, price_numeric, getitem, get;
  rewrite ?H1, ?H2, ?H3.

(** C5 (comparison ranking).  For entries whose numeric prices are 54900,
    52000 and 60000 (as [int] or as [float]), both comparison builders (the
    detail page and the search path) order the entries 52000, 54900, 60000,
    label the 52000 entry "Best Price" and the 60000 entry "15% Higher"
    (8000 / 52000 is 15.38 per cent, to no decimal place); the 54900 entry
    is "6% Higher". *)
Theorem C5_comparison_ranking (e1 e2 e3 : dict) :
  has_price e1 54900 -> has_price e2 52000 -> has_price e3 60000 ->
  let ranked := [set_difference e2 (VStr (py "Best Price"));
                 set_difference e1 (VStr (py "6% Higher"));
                 set_difference e3 (VStr (py "15% Higher"))] in
  rank_page_prices [e1; e2; e3] = Ok ranked
  /\ rank_search_prices [e1; e2; e3] = Ok ranked.
Proof.
  intros [H1|H1] [H2|H2] [H3|H3] ranked; subst ranked; split.
  all: unfold rank_page_prices, rank_search_prices, sort_by; cbn [map_result];
    read_prices H1 H2 H3;
    closed1 (@sort_pairs dict);
    cbn [map snd filter_result];
    read_prices H1 H2 H3;
    closed2 py_gt; cbn [map_result];
    read_prices H1 H2 H3;
    closed2 py_gt; closed2 percent_higher; reflexivity.
Qed.

End ComparisonProperties.

(** Witness of C5: three offers, two priced as floats and one as an int. *)
Lemma C5_witness :
  Comparison.rank_page_prices [Samples.offer_a; Samples.offer_b; Samples.offer_c]
  = Ok [Comparison.set_difference Samples.offer_b (VStr (py "Best Price"));
        Comparison.set_difference Samples.offer_a (VStr (py "6% Higher"));
        Comparison.set_difference Samples.offer_c (VStr (py "15% Higher"))].
Proof.
  apply (C5_comparison_ranking Samples.offer_a Samples.offer_b Samples.offer_c).
  - right. vm_compute. reflexivity.
  - right. vm_compute. reflexivity.
  - left. vm_compute. reflexivity.
Defined.

(** ** Floats of small integers *)

Section FloatLemmas.

Lemma digits2_pos_iter (p k : positive) :
  digits2_pos (Pos.iter xO p k) = (digits2_pos p + k)%positive.
Proof.
  induction k as [|k IH] using Pos.peano_ind.
  - cbn. lia.
  - rewrite Pos.iter_succ. cbn. rewrite IH. lia.
Qed.

Lemma Zpos_iter_xO (p k : positive) : Zpos (Pos.iter xO p k) = Zpos p * 2 ^ Zpos k.
Proof.
  induction k as [|k IH] using Pos.peano_ind.
  - cbn. lia.
  - rewrite Pos.iter_succ, Pos2Z.inj_xO, IH, Pos2Z.inj_succ, Z.pow_succ_r by lia. lia.
Qed.

Lemma digits2_pos_lower (p : positive) : 2 ^ (Zpos (digits2_pos p) - 1) <= Zpos p.
Proof.
  induction p as [p IH|p IH|]; cbn [digits2_pos]; [| |cbn; lia].
  all: rewrite Pos2Z.inj_succ; replace (Z.succ (Zpos (digits2_pos p)) - 1)
         with (Z.succ (Zpos (digits2_pos p) - 1)) by lia;
       rewrite Z.pow_succ_r by lia; lia.
Qed.

Lemma digits2_pos_small (p : positive) : Zpos p < 2 ^ 53 -> Zpos (digits2_pos p) <= 53.
Proof.
  intros Hp. pose proof (digits2_pos_lower p) as Hl.
  destruct (Z.le_gt_cases (Zpos (digits2_pos p)) 53) as [|Hgt]; [done|].
  assert (2 ^ 53 <= 2 ^ (Zpos (digits2_pos p) - 1)) by (apply Z.pow_le_mono_r; lia). lia.
Qed.

(** Rounding a mantissa that is already canonical changes nothing. *)
Lemma binary_round_aux_canonical (s : bool) (m : positive) (e : Z) :
  canonical_mantissa prec emax m e = true -> e <= emax - prec ->
  binary_round_aux prec emax s (Zpos m) e loc_Exact = S754_finite s m e.
Proof.
  intros Hc He. unfold canonical_mantissa in Hc. apply Z.eqb_eq in Hc.
  unfold binary_round_aux, shr_fexp. cbn [Zdigits2 shr_record_of_loc].
  rewrite Hc, Z.sub_diag. cbn [shr shr_m loc_of_shr_record round_nearest_even Zdigits2].
  rewrite Hc, Z.sub_diag. cbn [shr shr_m shr_record_of_loc].
  apply Z.leb_le in He. by rewrite He.
Qed.

Lemma round_Z_small (p : positive) :
  Zpos p < 2 ^ 53 ->
  round_Z (Zpos p) = S754_finite false (small_mantissa p) (small_exponent p)
  /\ Zpos (digits2_pos (small_mantissa p)) = 53
  /\ Zpos (small_mantissa p) = Zpos p * 2 ^ (- small_exponent p)
  /\ -52 <= small_exponent p <= 0.
Proof.
  intros Hp. pose proof (digits2_pos_small p Hp) as Hd.
  assert (0 < Zpos (digits2_pos p)) as Hd0 by lia.
  unfold round_Z, binary_normalize, binary_round, small_mantissa, small_exponent.
  replace (fexp prec emax (Zpos (digits2_pos p) + 0)) with (Zpos (digits2_pos p) - 53)
    by (unfold fexp, SpecFloat.emin, prec, emax; lia).
  unfold shl_align. rewrite Z.sub_0_r.
  destruct (Zpos (digits2_pos p) - 53) as [|k|k] eqn:Hk; [|lia|].
  - assert (Zpos (digits2_pos p) = 53) as Hd53 by lia.
    split; [|split; [done|split; [cbn; lia|lia]]].
    apply binary_round_aux_canonical; [|unfold emax, prec; lia].
    unfold canonical_mantissa. apply Z.eqb_eq. rewrite Hd53. reflexivity.
  - assert (Zpos (digits2_pos (Pos.iter xO p k)) = 53) as Hd53.
    { rewrite digits2_pos_iter, Pos2Z.inj_add. lia. }
    split; [|split; [done|split; [|lia]]].
    + apply binary_round_aux_canonical; [|unfold emax, prec; lia].
      unfold canonical_mantissa. apply Z.eqb_eq. rewrite Hd53.
      unfold fexp, SpecFloat.emin, prec, emax. lia.
    + rewrite Zpos_iter_xO. reflexivity.
Qed.

Lemma int_of_float_round_Z (n : Z) : 0 < n < 2 ^ 53 -> int_of_float (round_Z n) = Ok n.
Proof.
  intros [Hpos Hlt]. destruct n as [|p|p]; [lia| |lia].
  destruct (round_Z_small p Hlt) as (-> & _ & Hm & He).
  unfold int_of_float. destruct (small_exponent p) as [|k|k] eqn:Hk; [|lia|].
  - rewrite Hm. cbn. f_equal. lia.
  - rewrite Hm. f_equal. cbn [Z.opp]. rewrite Z.pow_pos_fold.
    apply Z.div_mul. apply Z.pow_nonzero; lia.
Qed.

Lemma scaled_round_round_Z (n : Z) :
  0 < n < 2 ^ 53 -> scaled_round 0 (round_Z n) = Some (Z.to_N n).
Proof.
  intros [Hpos Hlt]. destruct n as [|p|p]; [lia| |lia].
  destruct (round_Z_small p Hlt) as (-> & _ & Hm & He).
  unfold scaled_round. cbn [Z.of_nat]. rewrite Z.pow_0_r, Z.mul_1_r.
  destruct (small_exponent p) as [|k|k] eqn:Hk; [|lia|].
  - rewrite Hm. cbn [Z.opp]. do 2 f_equal. rewrite Z.pow_0_r. lia.
  - rewrite Hm. cbn [Z.opp]. rewrite Z.pow_pos_fold.
    assert (0 < 2 ^ Zpos k) as Hpow by (apply Z.pow_pos_nonneg; lia).
    rewrite Z.div_mul, Z.mod_mul by lia.
    replace (2 * 0 ?= 2 ^ Zpos k) with Lt by (symmetry; apply Z.compare_lt_iff; lia).
    reflexivity.
Qed.

Lemma format_fixed_round_Z (n : Z) :
  0 < n < 2 ^ 53 -> format_fixed true 0 (round_Z n) = group3 (digits (Z.to_N n)).
Proof.
  intros Hn. unfold format_fixed. rewrite (scaled_round_round_Z n Hn).
  destruct n as [|p|p]; [lia| |lia].
  destruct (round_Z_small p (proj2 Hn)) as (-> & _). cbn [sign_of N.of_nat].
  rewrite N.pow_0_r, N.div_1_r. by rewrite app_nil_r.
Qed.

Lemma Z_div_eucl_mul (a b : Z) : 0 < b -> Z.div_eucl (a * b) b = (a, 0).
Proof.
  intros Hb. pose proof (Z.div_mul a b ltac:(lia)) as Hq.
  pose proof (Z.mod_mul a b ltac:(lia)) as Hr.
  unfold Z.div, Z.modulo in Hq, Hr. destruct (Z.div_eucl (a * b) b). by subst.
Qed.

End FloatLemmas.

(** ** Rounding gives binary64 values *)

Section Validity.

Lemma digits2_pos_size (p : positive) : digits2_pos p = Pos.size p.
Proof. induction p as [p IH|p IH|]; cbn; by rewrite ?IH. Qed.

Lemma Zdigits2_log2 (m : Z) : 0 < m -> Zdigits2 m = Z.log2 m + 1.
Proof.
  destruct m as [|p|p]; [lia| |lia]. intros _. cbn [Zdigits2].
  rewrite digits2_pos_size. destruct p as [p|p|]; cbn [Z.log2 Pos.size]; lia.
Qed.

Lemma Zdigits2_nonneg (m : Z) : 0 <= Zdigits2 m.
Proof. destruct m; cbn; lia. Qed.

Lemma Zdigits2_mono (a b : Z) : 0 <= a <= b -> Zdigits2 a <= Zdigits2 b.
Proof.
  intros [Ha Hab]. destruct (Z.eq_dec a 0) as [->|Hne]; [apply Zdigits2_nonneg|].
  rewrite !Zdigits2_log2 by lia. pose proof (Z.log2_le_mono a b Hab). lia.
Qed.

Lemma iter_pos_nat {A} (f : A -> A) (n : positive) (x : A) :
  SpecFloat.iter_pos f n x = Nat.iter (Pos.to_nat n) f x.
Proof.
  revert x. induction n as [n IH|n IH|]; intros x; cbn [SpecFloat.iter_pos].
  - rewrite !IH, Pos2Nat.inj_xI.
    replace (S (2 * Pos.to_nat n)) with (Pos.to_nat n + Pos.to_nat n + 1)%nat by lia.
    by rewrite !Nat.iter_add.
  - rewrite !IH, Pos2Nat.inj_xO.
    replace (2 * Pos.to_nat n)%nat with (Pos.to_nat n + Pos.to_nat n)%nat by lia.
    by rewrite Nat.iter_add.
  - done.
Qed.

Lemma shr_1_div2 (mrs : shr_record) :
  0 <= shr_m mrs -> shr_m (shr_1 mrs) = shr_m mrs / 2 /\ 0 <= shr_m (shr_1 mrs).
Proof.
  destruct mrs as [m r s]. cbn [shr_m]. intros Hm. rewrite <- Z.div2_div.
  destruct m as [|[p|p|]|p]; cbn [shr_1 shr_m Z.div2]; try lia; split; lia || done.
Qed.

Lemma iter_shr_1 (k : nat) (mrs : shr_record) :
  0 <= shr_m mrs ->
  shr_m (Nat.iter k shr_1 mrs) = shr_m mrs / 2 ^ Z.of_nat k.
Proof.
  intros Hm. induction k as [|k IH].
  - cbn. by rewrite Z.div_1_r.
  - rewrite Nat.iter_succ.
    assert (0 <= shr_m (Nat.iter k shr_1 mrs)) as Hk.
    { rewrite IH. apply Z.div_pos; [done|]. apply Z.pow_pos_nonneg; lia. }
    destruct (shr_1_div2 _ Hk) as [-> _]. rewrite IH, Nat2Z.inj_succ, Z.pow_succ_r by lia.
    rewrite Z.div_div by (try apply Z.pow_pos_nonneg; lia). f_equal. lia.
Qed.

Lemma fexp_eq (e : Z) : fexp prec emax e = Z.max (e - 53) emin64.
Proof. reflexivity. Qed.

(** The first half of a rounding: the mantissa is cut back to the exponent
    that its magnitude asks for. *)
Lemma shr_fexp_canonical (m e : Z) (l : location) :
  0 < m -> e <= fexp prec emax (Zdigits2 m + e) ->
  let '(mrs, e') := shr_fexp prec emax m e l in
  0 <= shr_m mrs
  /\ emin64 <= e'
  /\ (shr_m mrs = 0 -> e' = emin64)
  /\ (0 < shr_m mrs -> fexp prec emax (Zdigits2 (shr_m mrs) + e') = e').
Proof.
  intros Hm He. unfold shr_fexp.
  set (D := Zdigits2 m + e) in *.
  destruct (fexp prec emax D - e) as [|n|n] eqn:Hn; cbn [shr].
  - assert (shr_m (shr_record_of_loc m l) = m) as -> by (by destruct l as [|[]]).
    rewrite fexp_eq in *. repeat split; try lia.
  - rewrite iter_pos_nat.
    assert (shr_m (shr_record_of_loc m l) = m) as Hrec by (by destruct l as [|[]]).
    rewrite iter_shr_1 by (rewrite Hrec; lia). rewrite Hrec, positive_nat_Z.
    assert (0 < 2 ^ Zpos n) as Hpow by (apply Z.pow_pos_nonneg; lia).
    assert (0 <= m / 2 ^ Zpos n) as Hq by (apply Z.div_pos; lia).
    assert (e + Zpos n = fexp prec emax D) as He' by lia.
    rewrite He'. split; [done|]. split; [rewrite fexp_eq; lia|]. split.
    + intros Hz. apply Z.div_small_iff in Hz; [|lia]. destruct Hz as [Hz|Hz]; [|lia].
      assert (Z.log2 m < Zpos n) as Hlog by (apply Z.log2_lt_pow2; lia).
      subst D. rewrite Zdigits2_log2 in * by lia. rewrite fexp_eq in *. lia.
    + intros Hpos.
      assert (2 ^ Zpos n <= m) as Hle.
      { destruct (Z.lt_ge_cases m (2 ^ Zpos n)) as [Hlt|]; [|done].
        rewrite Z.div_small in Hpos by lia. lia. }
      assert (Zdigits2 (m / 2 ^ Zpos n) = Zdigits2 m - Zpos n) as Hd.
      { rewrite !Zdigits2_log2 by lia.
        rewrite <- Z.shiftr_div_pow2, Z.log2_shiftr by lia.
        assert (Zpos n <= Z.log2 m) as Hlog by (apply Z.log2_le_pow2; lia). lia. }
      rewrite Hd. f_equal. subst D. lia.
  - lia.
Qed.

Lemma round_nearest_even_cases (m : Z) (l : location) :
  round_nearest_even m l = m \/ round_nearest_even m l = m + 1.
Proof. destruct l as [|[]]; cbn; try destruct (Z.even m); auto. Qed.

(** A rounding that starts from enough bits ends in a valid float. *)
Lemma binary_round_aux_valid (s : bool) (m e : Z) (l : location) :
  0 < m -> e <= fexp prec emax (Zdigits2 m + e) ->
  valid_binary prec emax (binary_round_aux prec emax s m e l) = true.
Proof.
  intros Hm He. unfold binary_round_aux.
  pose proof (shr_fexp_canonical m e l Hm He) as H1.
  destruct (shr_fexp prec emax m e l) as [mrs1 e1].
  destruct H1 as (Hm1 & He1 & Hz1 & Hc1).
  set (m2 := round_nearest_even (shr_m mrs1) (loc_of_shr_record mrs1)).
  assert (m2 = shr_m mrs1 \/ m2 = shr_m mrs1 + 1) as Hm2
    by apply round_nearest_even_cases.
  destruct (Z.eq_dec m2 0) as [Hz|Hnz].
  - rewrite Hz. unfold shr_fexp. cbn [Zdigits2 shr_record_of_loc].
    destruct (fexp prec emax (0 + e1) - e1) as [|n|n] eqn:Hn; cbn [shr shr_m]; [done| |done].
    rewrite fexp_eq in Hn. lia.
  - assert (0 < m2) as Hpos by lia.
    assert (e1 <= fexp prec emax (Zdigits2 m2 + e1)) as He2.
    { destruct (Z.eq_dec (shr_m mrs1) 0) as [Hz1'|Hnz1].
      - rewrite (Hz1 Hz1'), fexp_eq. lia.
      - rewrite <- (Hc1 ltac:(lia)) at 1. rewrite !fexp_eq.
        pose proof (Zdigits2_mono (shr_m mrs1) m2 ltac:(lia)). lia. }
    pose proof (shr_fexp_canonical m2 e1 loc_Exact Hpos He2) as H2.
    destruct (shr_fexp prec emax m2 e1 loc_Exact) as [mrs2 e2].
    destruct H2 as (Hm3 & He3 & Hz3 & Hc3).
    destruct (shr_m mrs2) as [|p|p] eqn:Hp; [done| |done].
    destruct (e2 <=? emax - prec) eqn:Hle; [|done].
    cbn [valid_binary]. unfold bounded, canonical_mantissa. rewrite Hle, andb_true_r.
    apply Z.eqb_eq. apply (Hc3 ltac:(lia)).
Qed.

Lemma binary_normalize_valid (m e : Z) (szero : bool) :
  valid_binary prec emax (binary_normalize prec emax m e szero) = true.
Proof.
  assert (forall s p, valid_binary prec emax (binary_round prec emax s p e) = true) as Hr.
  { intros s p. unfold binary_round, shl_align.
    destruct (fexp prec emax (Zpos (digits2_pos p) + e) - e) as [|k|k] eqn:Hk.
    - apply binary_round_aux_valid; [lia|]. cbn [Zdigits2]. lia.
    - apply binary_round_aux_valid; [lia|]. cbn [Zdigits2]. lia.
    - apply binary_round_aux_valid; [lia|]. cbn [Zdigits2].
      rewrite digits2_pos_iter, Pos2Z.inj_add.
      replace (Zpos (digits2_pos p) + Zpos k + fexp prec emax (Zpos (digits2_pos p) + e))
        with (Zpos (digits2_pos p) + e) by lia. lia. }
  destruct m; cbn [binary_normalize]; [done|apply Hr..].
Qed.
Lemma float_of_decimal_valid (neg : bool) (n : N) (k : Z) :
  valid_binary prec emax (float_of_decimal neg n k) = true.
Proof.
  unfold float_of_decimal, round_ratio. destruct n as [|p]; [done|].
  destruct k; apply binary_normalize_valid.
Qed.

Section WithUnicode.
Context {U : Unicode}.

(** [float()] returns a binary64 value. *)
Lemma py_float_valid (s : str) (p : f64) :
  py_float s = Ok p -> valid_binary prec emax p = true.
Proof.
  unfold py_float, floatnumber. intros Hp.
  repeat case_match; simplify_eq; try done; apply float_of_decimal_valid.
Qed.
End WithUnicode.

(** Dividing a float by 1.0 gives it back. *)
Lemma fdiv_one (x : f64) : valid_binary prec emax x = true -> fdiv x f_one = x.
Proof.
  destruct x as [s|s| |s m e]; cbn [valid_binary];
    [intros _; by destruct s|intros _; by destruct s|done|].
  unfold bounded, canonical_mantissa. intros [Hc He]%andb_true_iff.
  apply Z.eqb_eq in Hc. apply Z.leb_le in He. rewrite fexp_eq in Hc.
  unfold emax, prec in He.
  assert (Zpos (digits2_pos m) = 53 /\ emin64 < e
          \/ fexp prec emax (Zpos (digits2_pos m) + e - 1) = e) as [[Hd Hlo]|Hsame].
  { rewrite fexp_eq. unfold emin64 in *. lia. }
  - (* a normal number above the least exponent: the quotient gets one more bit *)
    unfold fdiv, f_one, SFdiv, SFdiv_core_binary. cbv zeta.
    change (Zdigits2 (Zpos m)) with (Zpos (digits2_pos m)).
    change (Zdigits2 4503599627370496) with 53.
    rewrite Hd.
    replace (Z.min (fexp prec emax (53 + e - (53 + -52))) (e - -52)) with (e - 1)
      by (rewrite fexp_eq; unfold emin64 in *; lia).
    replace (e - -52 - (e - 1)) with 53 by lia. cbv iota.
    rewrite Z.shiftl_mul_pow2 by lia.
    replace (Zpos m * 2 ^ 53) with (Zpos m~0 * 4503599627370496) by lia.
    rewrite Z_div_eucl_mul by lia.
    change (new_location 4503599627370496 0) with loc_Exact.
    unfold binary_round_aux, shr_fexp.
    change (Zdigits2 (Zpos m~0)) with (Zpos (Pos.succ (digits2_pos m))).
    rewrite Pos2Z.inj_succ, Hd.
    replace (fexp prec emax (Z.succ 53 + (e - 1)) - (e - 1)) with 1
      by (rewrite fexp_eq; unfold emin64 in *; lia).
    cbn [shr SpecFloat.iter_pos shr_1 shr_m shr_record_of_loc loc_of_shr_record
           round_nearest_even xorb orb].
    change (Zdigits2 (Zpos m)) with (Zpos (digits2_pos m)).
    rewrite Hd.
    replace (e - 1 + 1) with e by lia.
    replace (fexp prec emax (53 + e) - e) with 0
      by (rewrite fexp_eq; unfold emin64 in *; lia).
    cbn [shr shr_m shr_record_of_loc].
    replace (e <=? emax - prec) with true
      by (symmetry; apply Z.leb_le; unfold emax, prec; lia).
    by rewrite xorb_false_r.
  - (* the least exponent: the quotient is the mantissa *)
    unfold fdiv, f_one, SFdiv, SFdiv_core_binary. cbv zeta.
    change (Zdigits2 (Zpos m)) with (Zpos (digits2_pos m)).
    change (Zdigits2 4503599627370496) with 53.
    replace (Zpos (digits2_pos m) + e - (53 + -52)) with (Zpos (digits2_pos m) + e - 1)
      by lia.
    rewrite Hsame.
    replace (Z.min e (e - -52)) with e by lia.
    replace (e - -52 - e) with 52 by lia. cbv iota.
    rewrite Z.shiftl_mul_pow2 by lia.
    change (2 ^ 52) with 4503599627370496.
    rewrite Z_div_eucl_mul by lia.
    change (new_location 4503599627370496 0) with loc_Exact.
    rewrite xorb_false_r. apply binary_round_aux_canonical.
    + unfold canonical_mantissa. apply Z.eqb_eq. rewrite fexp_eq. lia.
    + unfold emax, prec. lia.
Qed.

(** Adding a float to 0.0 gives it back, negative zero apart. *)
Lemma fadd_zero (x : f64) : x <> S754_zero true -> fadd f_zero x = x.
Proof. destruct x as [[]|[]| |]; done. Qed.
End Validity.

(** ** Numerals *)

Section StringLemmas.
Context {U : Unicode}.

Lemma is_ascii_digit_spec (c : N) : is_ascii_digit c = true <-> (48 <= c <= 57)%N.
Proof. unfold is_ascii_digit. rewrite andb_true_iff, !N.leb_le. done. Qed.

(** *** The decimal digits of a number *)

Lemma digits_fuel_digit (fuel : nat) :
  forall n acc, forallb is_ascii_digit acc = true ->
  forallb is_ascii_digit (digits_fuel fuel n acc) = true.
Proof.
  induction fuel as [|fuel IH]; intros n acc Hacc; cbn [digits_fuel]; [done|].
  assert (forallb is_ascii_digit ((48 + n mod 10)%N :: acc) = true) as Hacc'.
  { cbn [forallb]. rewrite Hacc, andb_true_r. apply is_ascii_digit_spec.
    pose proof (N.mod_upper_bound n 10 ltac:(done)).
    generalize dependent (n mod 10)%N. intros; lia. }
  destruct (n <? 10)%N; [done|]. by apply IH.
Qed.

Lemma digits_fuel_nonempty (fuel : nat) :
  forall n acc, acc <> [] -> digits_fuel fuel n acc <> [].
Proof.
  induction fuel as [|fuel IH]; intros n acc Hacc; cbn [digits_fuel]; [done|].
  destruct (n <? 10)%N; [done|]. by apply IH.
Qed.

Lemma digits_fuel_value (fuel : nat) :
  forall n acc, (n < 2 ^ N.of_nat fuel)%N ->
  fold_left (fun a d => (a * 10 + d)%N) (map digit_value (digits_fuel fuel n acc)) 0%N
  = fold_left (fun a d => (a * 10 + d)%N) (map digit_value acc) n.
Proof.
  induction fuel as [|fuel IH]; intros n acc Hn; cbn [digits_fuel].
  - cbn in Hn. by replace n with 0%N by lia.
  - assert (digit_value (48 + n mod 10) = n mod 10)%N as Hv.
    { unfold digit_value. generalize (n mod 10)%N. intros; lia. }
    destruct (n <? 10)%N eqn:Hlt.
    + apply N.ltb_lt in Hlt. cbn [map fold_left]. rewrite Hv, N.mod_small by done. done.
    + rewrite IH.
      * cbn [map fold_left]. rewrite Hv. f_equal.
        pose proof (N.div_mod n 10 ltac:(done)). lia.
      * rewrite Nat2N.inj_succ, N.pow_succ_r' in Hn.
        apply N.Div0.div_lt_upper_bound. lia.
Qed.

Lemma digits_digit (n : N) : forallb is_ascii_digit (digits n) = true.
Proof. by apply digits_fuel_digit. Qed.

Lemma digits_nonempty (n : N) : digits n <> [].
Proof.
  unfold digits. cbn [digits_fuel]. destruct (n <? 10)%N; [done|].
  by apply digits_fuel_nonempty.
Qed.

Lemma digits_value (n : N) : value_of (map digit_value (digits n)) = n.
Proof.
  unfold value_of, digits. rewrite digits_fuel_value; [done|].
  destruct n as [|p]; [done|].
  rewrite Nat2N.inj_succ, N2Nat.id. apply N.log2_spec. lia.
Qed.

(** *** Thousands separators *)

Lemma group3_go_uncomma (s : str) :
  forall n, List.filter not_comma (group3_go s n) = List.filter not_comma s.
Proof.
  induction s as [|c r IH]; intros n; [done|].
  cbn [group3_go List.filter]. destruct r as [|c' r']; [done|].
  assert (List.filter not_comma
            (if (n mod 3 =? 1)%nat then 44%N :: group3_go (c' :: r') (Nat.pred n)
             else group3_go (c' :: r') (Nat.pred n))
          = List.filter not_comma (c' :: r')) as ->; [|done].
  destruct (n mod 3 =? 1)%nat; [cbn [List.filter not_comma N.eqb negb]|]; apply IH.
Qed.

Lemma group3_go_chars (s : str) :
  forall n, forallb is_ascii_digit s = true ->
  forallb digit_or_comma (group3_go s n) = true.
Proof.
  induction s as [|c r IH]; intros n Hs; [done|].
  cbn [forallb] in Hs. apply andb_true_iff in Hs as [Hc Hr].
  cbn [group3_go forallb]. unfold digit_or_comma at 1. rewrite Hc. cbn [orb andb].
  destruct r as [|c' r']; [done|].
  destruct (n mod 3 =? 1)%nat; [cbn [forallb]; rewrite IH by done; done|by apply IH].
Qed.

Lemma filter_all {A} (p : A -> bool) (l : list A) :
  forallb p l = true -> List.filter p l = l.
Proof.
  induction l as [|x l IH]; [done|]. cbn. intros [Hx Hl]%andb_true_iff.
  by rewrite Hx, IH.
Qed.

Lemma forallb_impl {A} (p q : A -> bool) (l : list A) :
  (forall x, p x = true -> q x = true) -> forallb p l = true -> forallb q l = true.
Proof.
  intros Hpq. induction l as [|x l IH]; [done|]. cbn.
  intros [Hx Hl]%andb_true_iff. by rewrite (Hpq _ Hx), IH.
Qed.

Lemma group3_uncomma (s : str) :
  forallb is_ascii_digit s = true -> List.filter not_comma (group3 s) = s.
Proof.
  intros Hs. unfold group3. rewrite group3_go_uncomma. apply filter_all.
  eapply forallb_impl; [|exact Hs]. intros c Hc. apply is_ascii_digit_spec in Hc.
  unfold not_comma. apply negb_true_iff, N.eqb_neq. lia.
Qed.

(** *** [replace] *)

Lemma replace_char (c : N) (s : str) :
  replace [c] [] s = List.filter (fun x => negb (x =? c)%N) s.
Proof.
  unfold replace. induction s as [|x s IH]; [done|].
  cbn [replace_go startswith length Nat.pred List.filter].
  rewrite andb_true_r, (N.eqb_sym c x). destruct (x =? c)%N; cbn [negb app]; by rewrite IH.
Qed.

Lemma replace_absent (a : N) (old new s : str) :
  forallb (fun x => negb (x =? a)%N) s = true -> replace (a :: old) new s = s.
Proof.
  unfold replace. induction s as [|x s IH]; [done|].
  cbn [forallb]. intros [Hx Hs]%andb_true_iff.
  cbn [replace_go startswith]. rewrite (N.eqb_sym a x).
  apply negb_true_iff in Hx. rewrite Hx. cbn [andb]. by rewrite IH.
Qed.

(** *** [strip] *)

Lemma lstrip_id (s : str) :
  match s with c :: _ => is_space c = false | [] => True end -> lstrip s = s.
Proof. destruct s as [|c r]; [done|]. cbn. by intros ->. Qed.

Lemma strip_digits (s : str) : forallb is_ascii_digit s = true -> strip s = s.
Proof.
  intros Hs.
  assert (forall l, forallb is_ascii_digit l = true -> lstrip l = l) as Hl.
  { intros l Hd. apply lstrip_id. destruct l as [|c r]; [done|].
    cbn [forallb] in Hd. apply andb_true_iff in Hd as [Hc _].
    apply is_ascii_digit_spec in Hc. unfold is_space.
    repeat (apply orb_false_iff; split); try apply andb_false_iff;
      rewrite ?N.leb_gt, ?N.eqb_neq; lia. }
  unfold strip, rstrip. rewrite (Hl s Hs), Hl, rev_involutive; [done|].
  rewrite forallb_forall in *. intros c Hc. apply Hs. by apply in_rev.
Qed.

(** [float()] and [int()] skip nothing at the ends of a run of digits. *)
Lemma strip_number_digits (s : str) :
  forallb is_ascii_digit s = true -> strip_by is_number_space s = s.
Proof.
  intros Hs.
  assert (forall l, forallb is_ascii_digit l = true -> lstrip_by is_number_space l = l) as Hl.
  { intros l Hd. destruct l as [|c r]; [done|].
    cbn [forallb] in Hd. apply andb_true_iff in Hd as [Hc _].
    apply is_ascii_digit_spec in Hc. cbn [lstrip_by].
    replace (is_number_space c) with false; [done|].
    symmetry. unfold is_number_space. apply andb_false_iff. left. unfold is_space.
    repeat (apply orb_false_iff; split); try apply andb_false_iff;
      rewrite ?N.leb_gt, ?N.eqb_neq; lia. }
  unfold strip_by. rewrite (Hl s Hs), Hl, rev_involutive; [done|].
  rewrite forallb_forall in *. intros c Hc. apply Hs. by apply in_rev.
Qed.
End StringLemmas.

Section ParseLemmas.
Context {U : Unicode}.

Lemma decimal_of_digit (c : N) :
  is_ascii_digit c = true -> decimal_of c = Some (digit_value c).
Proof.
  intros Hc. unfold decimal_of, digit_of. rewrite Hc.
  apply is_ascii_digit_spec in Hc.
  replace (c <? 128)%N with true by (symmetry; apply N.ltb_lt; lia). done.
Qed.

Lemma digitpart_go_digits (s : str) :
  forallb is_ascii_digit s = true -> digitpart_go s = (map digit_value s, []).
Proof.
  induction s as [|c r IH]; [done|]. cbn [forallb]. intros [Hc Hr]%andb_true_iff.
  cbn [digitpart_go map]. by rewrite (decimal_of_digit c Hc), (IH Hr).
Qed.

Lemma digitpart_digits (s : str) :
  s <> [] -> forallb is_ascii_digit s = true ->
  digitpart s = Some (map digit_value s, []).
Proof.
  destruct s as [|c r]; [done|]. intros _. cbn [forallb].
  intros [Hc Hr]%andb_true_iff. unfold digitpart.
  by rewrite (decimal_of_digit c Hc), (digitpart_go_digits r Hr).
Qed.

Lemma take_sign_none (c : N) (r : str) :
  c <> 45%N -> c <> 43%N -> take_sign (c :: r) = (false, c :: r).
Proof. intros H1 H2. unfold take_sign. repeat case_match; simplify_eq; done. Qed.

(** [float()] of a run of ASCII digits is the float nearest to its value. *)
Lemma py_float_digits (s : str) :
  s <> [] -> forallb is_ascii_digit s = true ->
  py_float s = Ok (float_of_decimal false (value_of (map digit_value s)) 0).
Proof.
  intros Hne Hs. unfold py_float. rewrite (strip_number_digits s Hs).
  destruct s as [|c r] eqn:Es; [done|]. rewrite <- Es in *.
  assert (is_ascii_digit c = true) as Hc.
  { rewrite Es in Hs. cbn [forallb] in Hs. by apply andb_true_iff in Hs as [? _]. }
  apply is_ascii_digit_spec in Hc.
  rewrite Es at 1. rewrite take_sign_none by lia. rewrite <- Es.
  assert (forall w, (exists x t, w = x :: t /\ x <> c) ->
                    str_eqb (ascii_lower s) w = false) as Hkw.
  { intros w (x & t & -> & Hx). unfold str_eqb. apply bool_decide_eq_false_2.
    rewrite Es. cbn [ascii_lower map].
    replace (is_upper c) with false
      by (symmetry; unfold is_upper; apply andb_false_iff; rewrite !N.leb_gt; lia).
    intros [= ->]. done. }
  rewrite !Hkw; [|exists 110%N; eexists; split; [reflexivity|lia]
                 |exists 105%N; eexists; split; [reflexivity|lia]
                 |exists 105%N; eexists; split; [reflexivity|lia]].
  cbn [orb]. unfold floatnumber. rewrite (digitpart_digits s Hne Hs).
  rewrite app_nil_r. destruct (map digit_value s) as [|d ds] eqn:Hm.
  { rewrite Es in Hm. done. }
  cbn [exponent length Z.of_nat]. by rewrite Z.sub_0_r.
Qed.

Lemma float_of_decimal_int (n : N) : float_of_decimal false n 0 = round_Z (Z.of_N n).
Proof.
  destruct n as [|p]; [done|]. unfold float_of_decimal, round_Z.
  rewrite Z.pow_0_r, Z.mul_1_r. done.
Qed.

Lemma price_clean_display (n : N) :
  Price.price_clean (py "₹" ++ group3 (digits n)) = digits n.
Proof.
  pose proof (digits_digit n) as Hd.
  pose proof (group3_go_chars (digits n) (length (digits n)) Hd) as Hg.
  fold (group3 (digits n)) in Hg.
  unfold Price.price_clean.
  change (py "₹") with [8377%N]. change (py ",") with [44%N].
  change (py "â¹") with [226%N; 185%N].
  change (py "Rs.") with [82%N; 115%N; 46%N]. change (py "Rs") with [82%N; 115%N].
  assert (forall a, a <> 44%N -> (a < 48 \/ 57 < a)%N ->
            forallb (fun x => negb (x =? a)%N) (group3 (digits n)) = true) as Hno.
  { intros a Ha1 Ha2. eapply forallb_impl; [|exact Hg]. intros x Hx.
    apply negb_true_iff, N.eqb_neq. unfold digit_or_comma in Hx.
    apply orb_true_iff in Hx as [Hx|Hx]; [apply is_ascii_digit_spec in Hx; lia|].
    apply N.eqb_eq in Hx. lia. }
  assert (forall a, (a < 48 \/ 57 < a)%N ->
            forallb (fun x => negb (x =? a)%N) (digits n) = true) as Hno'.
  { intros a Ha. eapply forallb_impl; [|exact Hd]. intros x Hx.
    apply negb_true_iff, N.eqb_neq. apply is_ascii_digit_spec in Hx. lia. }
  rewrite (replace_char 8377). cbn [app List.filter N.eqb Pos.eqb negb].
  rewrite (filter_all _ _ (Hno 8377%N ltac:(lia) ltac:(lia))).
  rewrite (replace_absent _ _ _ _ (Hno 226%N ltac:(lia) ltac:(lia))).
  rewrite (replace_char 44). fold not_comma. rewrite (group3_uncomma _ Hd).
  rewrite !(replace_absent _ _ _ _ (Hno' 82%N ltac:(lia))).
  by apply strip_digits.
Qed.

(** Parsing the display string of a natural number. *)
Lemma parse_display (n : N) :
  Price._parse_price_numeric (py "₹" ++ group3 (digits n)) = Ok (VFloat (round_Z (Z.of_N n))).
Proof.
  unfold Price._parse_price_numeric.
  change (py "₹") with [8377%N]. cbn [app truthy negb].
  change [8377%N] with (py "₹").
  change (8377%N :: group3 (digits n)) with (py "₹" ++ group3 (digits n)).
  rewrite price_clean_display, py_float_digits, digits_value, float_of_decimal_int;
    [done|apply digits_nonempty|apply digits_digit].
Qed.

End ParseLemmas.

(** ** The price parser and the display format *)

Section PriceProperties.
Import Price.
Context {U : Unicode}.

(** C4 (the price parser is safe).  For every input string
    [_parse_price_numeric] returns a number and does not raise: 0 for the
    empty string, the float that [float()] reads in the string once "₹", "â¹",
    ",", "Rs." and "Rs" are taken out and the ends are stripped, and 0 when
    [float()] rejects what is left, as for "Price not available". *)
Theorem C4_parse_price_never_raises (price_str : str) :
  (exists v, _parse_price_numeric price_str = Ok v /\ is_number v = true)
  /\ _parse_price_numeric price_str
     = Ok (match price_str with
           | [] => VInt 0
           | _ => match py_float (price_clean price_str) with
                  | Ok f => VFloat f
                  | Raise _ => VInt 0
                  end
           end)
  /\ _parse_price_numeric [] = Ok (VInt 0)
  /\ _parse_price_numeric (py "Price not available") = Ok (VInt 0)
  /\ _parse_price_numeric (py "₹54,900") = Ok (VFloat (round_Z 54900))
  /\ _parse_price_numeric (py "â¹54,900") = Ok (VFloat (round_Z 54900))
  /\ _parse_price_numeric (py "Rs. 54,900") = Ok (VFloat (round_Z 54900))
  /\ _parse_price_numeric (py "Rs54900") = Ok (VFloat (round_Z 54900)).
Proof.
  assert (_parse_price_numeric price_str
          = Ok (match price_str with
                | [] => VInt 0
                | _ => match py_float (price_clean price_str) with
                       | Ok f => VFloat f
                       | Raise _ => VInt 0
                       end
                end)) as Heq.
  { unfold _parse_price_numeric, try_except. destruct price_str as [|c r]; [done|].
    cbn [truthy negb]. by destruct (py_float _). }
  split; [|split; [exact Heq|repeat split; vm_compute; reflexivity]].
  rewrite Heq. eexists. split; [reflexivity|].
  destruct price_str; [done|]. by destruct (py_float _).
Qed.

(** C7 (round trip), as the code has it.  For every integer [0 < n < 2^53]
    and its display string [s], the rupee sign followed by the comma-grouped
    digits of [n]: parsing [s] gives the float equal to [n]; the display
    format of [_extract_json_data] applied to that integer gives [s] back;
    and parsing the formatted string gives what parsing [s] gave. *)
Theorem C7_display_round_trip (n : Z) :
  0 < n < 2 ^ 53 ->
  let s := py "₹" ++ format_int_comma n in
  _parse_price_numeric s = Ok (VFloat (round_Z n))
  /\ int_of_float (round_Z n) = Ok n
  /\ formatted_price n = s
  /\ _parse_price_numeric (formatted_price n) = _parse_price_numeric s.
Proof.
  intros Hn s.
  assert (formatted_price n = s) as Hfmt.
  { unfold formatted_price. cbn [truthy].
    replace (n =? 0) with false by (symmetry; apply Z.eqb_neq; lia). done. }
  assert (_parse_price_numeric s = Ok (VFloat (round_Z n))) as Hparse.
  { subst s. destruct n as [|p|p]; [lia| |lia]. cbn [format_int_comma].
    rewrite parse_display. by rewrite Z2N.id. }
  split; [exact Hparse|]. split; [by apply int_of_float_round_Z|].
  split; [exact Hfmt|]. by rewrite Hfmt.
Qed.

End PriceProperties.

(** Witness of C7: the display of the spec, "₹54,900". *)
Lemma C7_witness :
  @Price._parse_price_numeric PyStr.ascii_table (py "₹54,900") = Ok (VFloat (round_Z 54900))
  /\ int_of_float (round_Z 54900) = Ok 54900
  /\ Price.formatted_price 54900 = py "₹54,900"
  /\ @Price._parse_price_numeric PyStr.ascii_table (Price.formatted_price 54900)
     = @Price._parse_price_numeric PyStr.ascii_table (py "₹54,900").
Proof.
  apply (@C7_display_round_trip PyStr.ascii_table 54900). lia.
Defined.

(** Counterexamples to C7 as stated.  "₹0" is the rupee sign and a
    comma-grouped integer; it parses to 0.0, and the display format turns 0
    into "Price not available".  The 16-digit display below parses to the
    float 9007199254740992, one less than its integer, and formatting that
    gives another string. *)
Lemma C7_counterexample :
  (@Price._parse_price_numeric PyStr.ascii_table (py "₹0") = Ok (VFloat (S754_zero false))
   /\ int_of_float (S754_zero false) = Ok 0
   /\ Price.formatted_price 0 = py "Price not available"
   /\ Price.formatted_price 0 <> py "₹0")
  /\ (py "₹" ++ format_int_comma 9007199254740993 = py "₹9,007,199,254,740,993"
      /\ @Price._parse_price_numeric PyStr.ascii_table (py "₹9,007,199,254,740,993")
         = Ok (VFloat (round_Z 9007199254740992))
      /\ int_of_float (round_Z 9007199254740992) = Ok 9007199254740992
      /\ Price.formatted_price 9007199254740992 <> py "₹9,007,199,254,740,993").
Proof.
  split; (split; [vm_compute; reflexivity|]); (split; [vm_compute; reflexivity|]);
    (split; [vm_compute; reflexivity|]); vm_compute; discriminate.
Qed.

(** ** Statistics of a price history *)

Section HistoryProperties.
Import History.
Context {U : Unicode}.

Lemma stats_fields (v1 v2 v3 v4 v5 : pyval) :
  let stats : dict :=
    <["total_entries" := v5]> (<["average_price" := v4]> (<["highest_price" := v3]>
      (<["lowest_price" := v2]> (<["current_price" := v1]> ∅)))) in
  stats !! "current_price" = Some v1 /\ stats !! "lowest_price" = Some v2
  /\ stats !! "highest_price" = Some v3 /\ stats !! "average_price" = Some v4
  /\ stats !! "total_entries" = Some v5
  /\ stats !! "price_drop" = None /\ stats !! "price_increase" = None.
Proof. repeat split; vm_compute; reflexivity. Qed.

(** The statistics of a history of one point whose price parses to [p]. *)
Lemma statistics_one_point (entry : dict) (s : str) (p : f64) :
  entry !! "price" = Some (VStr s) ->
  py_float (replace (py ",") [] (replace (py "₹") [] s)) = Ok p ->
  calculate_statistics [entry]
  = <["total_entries" := VInt 1]>
      (<["average_price" :=
           VStr (py "₹" ++ format_fixed true 0 (fdiv (fadd f_zero p) f_one))]>
         (<["highest_price" := VStr (py "₹" ++ format_fixed true 0 p)]>
            (<["lowest_price" := VStr (py "₹" ++ format_fixed true 0 p)]>
               (<["current_price" := VStr s]> ∅)))).
Proof.
  intros Hentry Hparse.
  unfold calculate_statistics, statistics_body. cbn [for_each].
  unfold collect_price, history_price, get. rewrite Hentry, Hparse.
  cbn [app last length Nat.ltb Nat.leb default].
  unfold get. rewrite Hentry.
  cbn [PySort.py_min PySort.py_max PySort.py_sum for_each].
  change (py_add (VInt 0) (VFloat p)) with (Ok (VFloat (fadd f_zero p)) : result pyval).
  change (Z.of_nat 1) with 1.
  change (py_truediv (VFloat (fadd f_zero p)) (VInt 1))
    with (Ok (VFloat (fdiv (fadd f_zero p) f_one)) : result pyval).
  reflexivity.
Qed.

(** C9 (statistics of a single point), as the code has it.  For a history
    of exactly one point whose price display [s] parses to the number [p]:
    [current_price] is [s] itself; [lowest_price], [highest_price] and (for [p]
    other than negative zero) [average_price] are all "₹" followed by [p]
    rounded to a whole number with thousands separators; there are one entry
    and no [price_drop] or [price_increase] field.  When [s] is the rupee
    sign followed by the comma-grouped digits of an integer [0 < n < 2^53],
    the lowest, highest and average prices all equal [s]. *)
Theorem C9_single_point_statistics (entry : dict) (s : str) (p : f64) :
  entry !! "price" = Some (VStr s) ->
  py_float (replace (py ",") [] (replace (py "₹") [] s)) = Ok p ->
  let stats := calculate_statistics [entry] in
  let rounded := VStr (py "₹" ++ format_fixed true 0 p) in
  stats !! "current_price" = Some (VStr s)
  /\ stats !! "lowest_price" = Some rounded
  /\ stats !! "highest_price" = Some rounded
  /\ (p <> S754_zero true -> stats !! "average_price" = Some rounded)
  /\ stats !! "total_entries" = Some (VInt 1)
  /\ stats !! "price_drop" = None
  /\ stats !! "price_increase" = None
  /\ (forall n, 0 < n < 2 ^ 53 -> s = py "₹" ++ format_int_comma n ->
        stats !! "lowest_price" = Some (VStr s)
        /\ stats !! "highest_price" = Some (VStr s)
        /\ stats !! "average_price" = Some (VStr s)).
Proof.
  intros Hentry Hparse stats rounded. subst stats rounded.
  rewrite (statistics_one_point entry s p Hentry Hparse).
  match goal with
  | |- context [<["total_entries" := ?v5]> (<["average_price" := ?v4]>
         (<["highest_price" := ?v3]> (<["lowest_price" := ?v2]>
         (<["current_price" := ?v1]> ∅))))] =>
      destruct (stats_fields v1 v2 v3 v4 v5) as (H1 & H2 & H3 & H4 & H5 & H6 & H7)
  end.
  assert (p <> S754_zero true ->
          fdiv (fadd f_zero p) f_one = p) as Havg.
  { intros Hnz. rewrite (fadd_zero p Hnz). apply fdiv_one. by eapply py_float_valid. }
  split; [assumption|]. split; [assumption|]. split; [assumption|].
  split; [intros Hnz; by rewrite H4, (Havg Hnz)|].
  split; [assumption|]. split; [assumption|]. split; [assumption|].
  intros n Hn Hs.
  assert (p = round_Z n /\ format_fixed true 0 p = format_int_comma n) as [Hp Hfmt].
  { destruct n as [|q|q]; [lia| |lia]. cbn [format_int_comma] in *.
    assert (replace (py ",") [] (replace (py "₹") [] s) = digits (Z.to_N (Zpos q))) as Hclean.
    { rewrite Hs. pose proof (digits_digit (Z.to_N (Zpos q))) as Hd.
      pose proof (group3_go_chars _ (length (digits (Z.to_N (Zpos q)))) Hd) as Hg.
      change (py "₹") with [8377%N]. change (py ",") with [44%N].
      rewrite (replace_char 8377). cbn [app List.filter N.eqb Pos.eqb negb].
      rewrite filter_all.
      - rewrite (replace_char 44). fold not_comma. by apply group3_uncomma.
      - eapply forallb_impl; [|exact Hg]. intros x Hx.
        apply negb_true_iff, N.eqb_neq. unfold digit_or_comma in Hx.
        apply orb_true_iff in Hx as [Hx|Hx]; [apply is_ascii_digit_spec in Hx; lia|].
        apply N.eqb_eq in Hx. lia. }
    rewrite Hclean, py_float_digits, digits_value, float_of_decimal_int in Hparse;
      [|apply digits_nonempty|apply digits_digit].
    rewrite Z2N.id in Hparse by lia.
    assert (p = round_Z (Zpos q)) as -> by congruence.
    split; [done|]. by apply format_fixed_round_Z. }
  assert (p <> S754_zero true) as Hnz.
  { rewrite Hp. destruct n as [|q|q]; [lia| |lia].
    destruct (round_Z_small q (proj2 Hn)) as (-> & _). done. }
  rewrite H2, H3, H4, (Havg Hnz), Hfmt, <- Hs. done.
Qed.

End HistoryProperties.

(** Witness of C9: one point at "₹54,900". *)
Lemma C9_witness :
  let stats := @History.calculate_statistics PyStr.ascii_table
                 [Samples.point "₹54,900" "Amazon"] in
  stats !! "current_price" = Some (VStr (py "₹54,900"))
  /\ stats !! "lowest_price" = Some (VStr (py "₹54,900"))
  /\ stats !! "highest_price" = Some (VStr (py "₹54,900"))
  /\ stats !! "average_price" = Some (VStr (py "₹54,900"))
  /\ stats !! "price_drop" = None
  /\ stats !! "price_increase" = None.
Proof.
  intros stats.
  destruct (@C9_single_point_statistics PyStr.ascii_table
              (Samples.point "₹54,900" "Amazon") (py "₹54,900") (round_Z 54900))
    as (Hc & _ & _ & _ & _ & Hd & Hi & Hall).
  - vm_compute. reflexivity.
  - vm_compute. reflexivity.
  - destruct (Hall 54900) as (Hlo & Hhi & Hav); [lia|reflexivity|].
    repeat split; assumption.
Defined.

(** Counterexample to C9 as stated: the one point "₹54,900.50" parses to
    54900.5; the current price is the display itself, while the lowest,
    highest and average prices are "₹54,900", which is neither that display
    nor a string that parses to the point's price. *)
Lemma C9_counterexample :
  let display := py "₹54,900.50" in
  let stats := @History.calculate_statistics PyStr.ascii_table
                 [Samples.point "₹54,900.50" "Amazon"] in
  @py_float PyStr.ascii_table (replace (py ",") [] (replace (py "₹") [] display))
  = Ok (float_of_decimal false 549005 (-1))
  /\ stats !! "current_price" = Some (VStr display)
  /\ stats !! "lowest_price" = Some (VStr (py "₹54,900"))
  /\ stats !! "highest_price" = Some (VStr (py "₹54,900"))
  /\ stats !! "average_price" = Some (VStr (py "₹54,900"))
  /\ py "₹54,900" <> display
  /\ @Price._parse_price_numeric PyStr.ascii_table (py "₹54,900")
     <> @Price._parse_price_numeric PyStr.ascii_table display.
Proof.
  repeat split; try (vm_compute; reflexivity); vm_compute; discriminate.
Qed.

(** ** The platform quota of the structured-data extractor *)

Section QuotaProperties.
Import Extract.
Context {U : Unicode} {H : Helpers}.

Lemma platform_name_inj (p q : platform) : platform_name p = platform_name q -> p = q.
Proof. destruct p, q; intros Hn; try reflexivity; vm_compute in Hn; discriminate Hn. Qed.

Lemma built_has_platform (i : nat) (m : match_data) (p q : platform) (product : dict) :
  popularity_str m = py "0" -> is_active_str m = py "1" ->
  build_product i m p = Ok product ->
  has_platform q product = bool_decide (p = q)
  /\ name_of product = VStr (strip (prod_name m)).
Proof.
  intros Hpop Hact Hb.
  destruct (build_product_fields i m p product Hpop Hact Hb)
    as (price & _ & Hname & _ & Hplat & _).
  split.
  - unfold has_platform. rewrite Hplat. apply bool_decide_ext. split.
    + intros [= Hn]. by apply platform_name_inj.
    + by intros ->.
  - unfold name_of, get. by rewrite Hname.
Qed.

Lemma build_product_reads (i : nat) (m : match_data) (p : platform) :
  popularity_str m = py "0" -> is_active_str m = py "1" ->
  price_reads m = true -> exists product, build_product i m p = Ok product.
Proof.
  intros Hpop Hact Hr. unfold price_reads in Hr. unfold build_product.
  rewrite Hpop, Hact.
  destruct (Price.price_of_field (price_str m)) as [price|]; [|done].
  replace (int_or (py "0") 0) with (Ok 0 : result Z) by (vm_compute; reflexivity).
  replace (int_or (py "1") 1) with (Ok 1 : result Z) by (vm_compute; reflexivity).
  destruct (availability 1 price 0). eauto.
Qed.

(** One turn of the loop, for a match that goes in when it is an Amazon or
    a Flipkart one, while fewer than ten Flipkart matches have been seen:
    the loop does not stop, the invariant is kept, a Flipkart match is
    appended and an Amazon match is appended unless its quota is used up. *)
Lemma step_quota (query : str) (i : nat) (m : match_data) (st : state) :
  well_formed_match m ->
  implb (is_platform Amazon m || is_platform Flipkart m) (goes_in query m) = true ->
  quota_invariant st ->
  (flipkart_count st + flag (is_platform Flipkart m) <= 9)%nat ->
  exists st',
    step query i m st = Next st'
    /\ quota_invariant st'
    /\ amazon_count st'
       = Nat.min max_per_platform (amazon_count st + flag (is_platform Amazon m))
    /\ flipkart_count st' = (flipkart_count st + flag (is_platform Flipkart m))%nat
    /\ map name_of (List.filter (has_platform Flipkart) (products st'))
       = map name_of (List.filter (has_platform Flipkart) (products st))
           ++ (if is_platform Flipkart m then [VStr (strip (prod_name m))] else []).
Proof.
  intros [Hpop Hact] Hgo (HA & Hlen & HcA & HcO) HF.
  unfold step, is_platform in *. unfold max_per_platform in *.
  set (p := platform_of m) in *.
  assert (forall product, build_product i m p = Ok product ->
            List.filter (has_platform Amazon) (products st ++ [product])
            = List.filter (has_platform Amazon) (products st)
                ++ (if bool_decide (p = Amazon) then [product] else [])
            /\ map name_of (List.filter (has_platform Flipkart) (products st ++ [product]))
               = map name_of (List.filter (has_platform Flipkart) (products st))
                   ++ (if bool_decide (p = Flipkart)
                       then [VStr (strip (prod_name m))] else [])) as Happ.
  { intros product Hb.
    destruct (built_has_platform i m p Amazon product Hpop Hact Hb) as [HpA _].
    destruct (built_has_platform i m p Flipkart product Hpop Hact Hb) as [HpF Hn].
    rewrite !List.filter_app. cbn [List.filter]. rewrite HpA, HpF. split; [done|].
    rewrite map_app. destruct (bool_decide (p = Flipkart)); cbn [map]; by rewrite ?Hn. }
  assert (forall product,
            (length (products st) < 59)%nat ->
            (max_products <=? length (products st ++ [product]))%nat = false) as Hroom.
  { intros product Hl. apply Nat.leb_gt. rewrite length_app. unfold max_products.
    cbn [length]. lia. }
  destruct (decide (p = Amazon)) as [HpA|HpA];
    [|destruct (decide (p = Flipkart)) as [HpF|HpF]].
  - (* an Amazon match *)
    rewrite HpA in *. cbn [counter_of bump].
    rewrite !bool_decide_eq_true_2 in Hgo by done.
    rewrite bool_decide_eq_true_2 by done.
    rewrite (bool_decide_eq_false_2 (Amazon = Flipkart)) in * by done.
    cbn [orb implb flag] in *. rewrite Nat.add_0_r in *.
    destruct (25 <=? amazon_count st)%nat eqn:Hq.
    + apply Nat.leb_le in Hq. exists st. rewrite app_nil_r.
      unfold quota_invariant, max_per_platform. repeat split; try done; lia.
    + apply Nat.leb_gt in Hq.
      unfold goes_in in Hgo. apply andb_true_iff in Hgo as [Hadm Hreads].
      destruct (build_product_reads i m Amazon Hpop Hact Hreads) as [product Hb].
      rewrite Hb, Hadm. destruct (Happ product Hb) as [HfA HfF].
      rewrite ?bool_decide_eq_true_2 in HfA by done.
      cbn [append_product products]. rewrite Hroom by lia.
      eexists. split; [reflexivity|]. unfold quota_invariant, max_per_platform.
      cbn [append_product products amazon_count flipkart_count others_count].
      rewrite HfA, HfF, !length_app. cbn [length]. repeat split; try done; lia.
  - (* a Flipkart match *)
    rewrite HpF in *. cbn [counter_of bump].
    rewrite (bool_decide_eq_false_2 (Flipkart = Amazon)) in * by done.
    rewrite !bool_decide_eq_true_2 in Hgo by done.
    rewrite !bool_decide_eq_true_2 in HF by done.
    rewrite bool_decide_eq_true_2 by done.
    cbn [orb implb flag] in *.
    replace (25 <=? flipkart_count st)%nat with false
      by (symmetry; apply Nat.leb_gt; lia).
    unfold goes_in in Hgo. apply andb_true_iff in Hgo as [Hadm Hreads].
    destruct (build_product_reads i m Flipkart Hpop Hact Hreads) as [product Hb].
    rewrite Hb, Hadm. destruct (Happ product Hb) as [HfA HfF].
    rewrite ?bool_decide_eq_true_2 in HfF by done.
    cbn [append_product products]. rewrite Hroom by lia.
    eexists. split; [reflexivity|]. unfold quota_invariant, max_per_platform.
    cbn [append_product products amazon_count flipkart_count others_count].
    rewrite HfA, HfF, app_nil_r, !length_app. cbn [length]. repeat split; try done; lia.
  - (* another platform *)
    rewrite (bool_decide_eq_false_2 (p = Amazon)) in * by done.
    rewrite (bool_decide_eq_false_2 (p = Flipkart)) in * by done.
    cbn [flag] in *. rewrite !Nat.add_0_r in *. rewrite app_nil_r.
    assert (counter_of p st = others_count st) as -> by (by destruct p).
    assert (bump p st = {| products := products st; amazon_count := amazon_count st;
                           flipkart_count := flipkart_count st;
                           others_count := S (others_count st) |}) as ->
      by (by destruct p).
    destruct (25 <=? others_count st)%nat eqn:Hq.
    { exists st. unfold quota_invariant, max_per_platform. repeat split; try done; lia. }
    apply Nat.leb_gt in Hq.
    destruct (build_product i m p) as [product|e] eqn:Hb.
    2:{ eexists. split; [reflexivity|]. unfold quota_invariant, max_per_platform.
        cbn [append_product products amazon_count flipkart_count others_count].
        repeat split; try done; lia. }
    destruct (admitted query (strip (prod_name m))).
    2:{ eexists. split; [reflexivity|]. unfold quota_invariant, max_per_platform.
        cbn [append_product products amazon_count flipkart_count others_count].
        repeat split; try done; lia. }
    destruct (Happ product eq_refl) as [HfA HfF].
    cbn [append_product products]. rewrite Hroom by lia.
    eexists. split; [reflexivity|]. unfold quota_invariant, max_per_platform.
    cbn [append_product products amazon_count flipkart_count others_count].
    rewrite HfA, HfF, !app_nil_r, !length_app. cbn [length]. repeat split; try done; lia.
Qed.

(** The whole loop, under the same conditions. *)
Lemma extract_loop_quota (query : str) (ms : list match_data) :
  forall i st,
  Forall well_formed_match ms ->
  forallb (fun m => implb (is_platform Amazon m || is_platform Flipkart m)
                      (goes_in query m)) ms = true ->
  quota_invariant st ->
  (flipkart_count st + length (List.filter (is_platform Flipkart) ms) <= 9)%nat ->
  let out := extract_loop query i ms st in
  length (List.filter (has_platform Amazon) out)
  = Nat.min max_per_platform
      (amazon_count st + length (List.filter (is_platform Amazon) ms))
  /\ map name_of (List.filter (has_platform Flipkart) out)
     = map name_of (List.filter (has_platform Flipkart) (products st))
         ++ map (fun m => VStr (strip (prod_name m)))
              (List.filter (is_platform Flipkart) ms).
Proof.
  induction ms as [|m ms IH]; intros i st Hwf Hgo Hinv HF out; subst out.
  - cbn [extract_loop List.filter length map]. rewrite app_nil_r, Nat.add_0_r.
    destruct Hinv as (HA & _ & HcA & _). split; [lia|done].
  - apply Forall_cons in Hwf as [Hm Hwf].
    cbn [forallb] in Hgo. apply andb_true_iff in Hgo as [Hgm Hgo].
    cbn [List.filter] in HF |- *.
    assert (length (if is_platform Flipkart m
                    then m :: List.filter (is_platform Flipkart) ms
                    else List.filter (is_platform Flipkart) ms)
            = (flag (is_platform Flipkart m)
               + length (List.filter (is_platform Flipkart) ms))%nat) as HlF
      by (by destruct (is_platform Flipkart m)).
    assert (length (if is_platform Amazon m
                    then m :: List.filter (is_platform Amazon) ms
                    else List.filter (is_platform Amazon) ms)
            = (flag (is_platform Amazon m)
               + length (List.filter (is_platform Amazon) ms))%nat) as HlA
      by (by destruct (is_platform Amazon m)).
    rewrite HlF in HF. rewrite HlA.
    destruct (step_quota query i m st Hm Hgm Hinv ltac:(lia))
      as (st' & Hstep & Hinv' & HcA' & HcF' & Hnames).
    cbn [extract_loop]. rewrite Hstep.
    destruct (IH (S i) st' Hwf Hgo Hinv' ltac:(lia)) as [IHA IHF].
    split.
    + rewrite IHA, HcA'. lia.
    + rewrite IHF, Hnames, <- app_assoc. f_equal.
      by destruct (is_platform Flipkart m).
Qed.

(** C2 (platform diversity cap), as the code has it.  For a structured-data
    input whose complete records hold 100 classified as Amazon and 5
    classified as Flipkart, all of which pass the relevance filter, have a
    trimmed name of more than 5 characters and a price field that converts
    without an exception, [_extract_json_data] returns 25 Amazon records
    (so at most 25) and all 5 Flipkart records, in their order. *)
Theorem C2_platform_quota (html_content query : str) :
  let ms := product_matches html_content in
  length (List.filter (is_platform Amazon) ms) = 100%nat ->
  length (List.filter (is_platform Flipkart) ms) = 5%nat ->
  forallb (fun m => implb (is_platform Amazon m || is_platform Flipkart m)
                      (passes_relevance query m
                       && (5 <? length (strip (prod_name m)))%nat
                       && price_reads m)) ms = true ->
  let out := _extract_json_data html_content query in
  (length (List.filter (has_platform Amazon) out) <= max_per_platform)%nat
  /\ length (List.filter (has_platform Amazon) out) = 25%nat
  /\ length (List.filter (has_platform Flipkart) out) = 5%nat
  /\ map name_of (List.filter (has_platform Flipkart) out)
     = map (fun m => VStr (strip (prod_name m))) (List.filter (is_platform Flipkart) ms).
Proof.
  intros ms HnA HnF Hpass out. subst out. unfold _extract_json_data. fold ms.
  assert (Forall well_formed_match ms) as Hwf.
  { apply Forall_forall. intros m Hm.
    destruct (product_matches_constants html_content m Hm) as (Hp & Ha & _). by split. }
  assert (forallb (fun m => implb (is_platform Amazon m || is_platform Flipkart m)
                              (goes_in query m)) ms = true) as Hgo.
  { rewrite forallb_forall in *. intros m Hm. specialize (Hpass m Hm).
    destruct (is_platform Amazon m || is_platform Flipkart m); [|done].
    cbn [implb] in *. apply andb_true_iff in Hpass as [[Hrel Hlen]%andb_true_iff Hreads].
    unfold goes_in, admitted. unfold passes_relevance in Hrel.
    rewrite Hrel, Hlen, Hreads. apply Nat.ltb_lt in Hlen.
    by destruct (strip (prod_name m)); [cbn in Hlen; lia|]. }
  destruct (extract_loop_quota query ms 0 initial Hwf Hgo) as [HA HF].
  { unfold quota_invariant, initial, max_per_platform. cbn. lia. }
  { rewrite HnF. cbn. lia. }
  rewrite HnA in HA. cbn [initial amazon_count products List.filter map app] in HA, HF.
  unfold max_per_platform in *.
  split; [lia|]. split; [lia|]. split; [|exact HF].
  rewrite <- (length_map name_of), HF, length_map. exact HnF.
Qed.

End QuotaProperties.

(** Witness of C2: 100 Amazon listings "Samsung Smart TV 43 inch" and five
    Flipkart listings "LG Smart TV 55", for the query "tv". *)
Lemma C2_witness :
  let page := Samples.catalogue_page "Samsung Smart TV 43 inch" "LG Smart TV 55" in
  let out := @Extract._extract_json_data PyStr.ascii_table Samples.plain_helpers
               page (py "tv") in
  length (List.filter (Extract.has_platform Extract.Amazon) out) = 25%nat
  /\ length (List.filter (Extract.has_platform Extract.Flipkart) out) = 5%nat.
Proof.
  intros page out.
  destruct (@C2_platform_quota PyStr.ascii_table Samples.plain_helpers page (py "tv"))
    as (_ & HA & HF & _).
  - vm_compute. reflexivity.
  - vm_compute. reflexivity.
  - vm_compute. reflexivity.
  - split; [exact HA|exact HF].
Defined.

(** Counterexample to C2 as stated: 100 Amazon listings and five Flipkart
    listings named "LG TV", all complete and all passing the relevance filter
    for the query "tv"; the name has 5 characters, the record test asks for
    more than 5, and no Flipkart record is returned. *)
Lemma C2_counterexample :
  let page := Samples.catalogue_page "Samsung Smart TV 43 inch" "LG TV" in
  let ms := Extract.product_matches page in
  let out := @Extract._extract_json_data PyStr.ascii_table Samples.plain_helpers
               page (py "tv") in
  length (List.filter (@Extract.is_platform PyStr.ascii_table Extract.Amazon) ms) = 100%nat
  /\ length (List.filter (@Extract.is_platform PyStr.ascii_table Extract.Flipkart) ms) = 5%nat
  /\ forallb (@Extract.passes_relevance PyStr.ascii_table (py "tv")) ms = true
  /\ length (List.filter (Extract.has_platform Extract.Amazon) out) = 25%nat
  /\ length (List.filter (Extract.has_platform Extract.Flipkart) out) = 0%nat.
Proof. repeat split; vm_compute; reflexivity. Qed.

(** * Further properties of the code *)

Section LoopFacts.
Context {S A : Type} (f : S -> A -> result S).

End LoopFacts.


(** ** Statistics of a price history with several points *)

Section HistoryFacts.
Import History.
Context {U : Unicode}.















End HistoryFacts.




(** ** The platforms of a merged price list *)

Section MergeFacts.
Import Merge.
Context {U : Unicode}.







End MergeFacts.




(** ** The records of the structured-data extractor *)

Section ExtractFacts.
Import Extract ExtractDefs.
Context {U : Unicode} {H : Helpers}.













End ExtractFacts.


(** ** The events of a search *)

Section OrchestratorFacts.
Import Extract Orchestrator.
Context {U : Unicode} {H : Helpers} {W : World}.



End OrchestratorFacts.

(** ** The address of the image of a record *)

Section ImageFacts.
Import Images.
Context {U : Unicode}.
















End ImageFacts.


(** ** The address of the detail page *)

Section DetailUrlFacts.
Import DetailUrl.
Context {U : Unicode} {UW : UnicodeWord}.






Section Addresses.
Import Extract.
Context (clock : nat -> str).
Abbreviation Hh := (scraper_helpers clock).


End Addresses.

End DetailUrlFacts.

